(** * Cursor-Azure-GPT-5: the Azure adapter

    A shallow embedding of [app/azure/request_adapter.py] (the request
    translator and its content normalizer) and of [app/azure/adapter.py] (the
    orchestrator and its error reporter), and the properties of the written
    specification that concern them.

    Conventions of the embedding.
    - A Python [str] is a Rocq [string]; one [ascii] stands for one character
      (code points 0 to 255).
    - A value decoded from JSON is a [pyval].  JSON numbers are integers;
      floating-point numbers are outside the model.
    - A Python [dict] is an association list in insertion order, as
      [json.dumps] prints it.
    - An operation that can raise returns in [res]; code that also writes
      per-request state or talks to the outside world runs in [io]. *)

From Stdlib Require Import String Ascii List ZArith Lia Bool DecimalString.
Import ListNotations.
Open Scope string_scope.
Open Scope nat_scope.

(** ** Characters and strings *)

Definition LF : ascii := ascii_of_nat 10.
Definition nl : string := String LF "".
Definition tab : string := String (ascii_of_nat 9) "".

Definition code (c : ascii) : nat := nat_of_ascii c.

Definition is_empty (s : string) : bool :=
  match s with "" => true | _ => false end.

(** [sep.join(l)] *)
Fixpoint str_join (sep : string) (l : list string) : string :=
  match l with
  | [] => ""
  | [x] => x
  | x :: xs => x ++ sep ++ str_join sep xs
  end.

(** [s[:n]] *)
Fixpoint str_take (n : nat) (s : string) : string :=
  match n, s with
  | S k, String c s' => String c (str_take k s')
  | _, _ => ""
  end.

(** [s[n:]] *)
Fixpoint str_drop (n : nat) (s : string) : string :=
  match n, s with
  | S k, String _ s' => str_drop k s'
  | _, _ => s
  end.

(** [s[-n:]] for [n > 0] *)
Definition str_last (n : nat) (s : string) : string :=
  str_drop (String.length s - n) s.

(** [needle in hay] *)
Fixpoint contains (needle hay : string) : bool :=
  prefix needle hay ||
  match hay with
  | "" => false
  | String _ hay' => contains needle hay'
  end.

(** [s.replace(old, new)] for a non-empty [old] (both call sites pass a
    non-empty literal): the leftmost occurrences, not overlapping, are all
    replaced.  [skip] counts the characters of an occurrence still to drop. *)
Fixpoint replace_from (old new : string) (skip : nat) (s : string) : string :=
  match s with
  | "" => ""
  | String c s' =>
      match skip with
      | S k => replace_from old new k s'
      | O =>
          if prefix old s
          then new ++ replace_from old new (String.length old - 1) s'
          else String c (replace_from old new 0 s')
      end
  end.

Definition str_replace (s old new : string) : string :=
  replace_from old new 0 s.

(** [s.lower()], on code points 0 to 255: the ASCII capitals and the Latin-1
    capitals (all of 0xC0-0xDE but the multiplication sign 0xD7). *)
Definition lower_char (c : ascii) : ascii :=
  let n := code c in
  if ((65 <=? n) && (n <=? 90))
     || ((192 <=? n) && (n <=? 222) && negb (n =? 215))
  then ascii_of_nat (n + 32) else c.

Fixpoint str_lower (s : string) : string :=
  match s with
  | "" => ""
  | String c s' => String (lower_char c) (str_lower s')
  end.

(** [str(n)] of an integer *)
Definition str_of_Z (z : Z) : string := NilZero.string_of_int (Z.to_int z).
Definition str_of_nat (n : nat) : string := str_of_Z (Z.of_nat n).

Definition hex_digit (n : nat) : ascii :=
  ascii_of_nat (if n <? 10 then 48 + n else 87 + n).

(** two lower-case hexadecimal digits of a code point below 256 *)
Definition hex2 (c : ascii) : string :=
  String (hex_digit (code c / 16)) (String (hex_digit (code c mod 16)) "").

(** ** Python values *)

#[warnings="-register-all"]
Inductive pyval : Type :=
| PNone
| PBool (b : bool)
| PInt (z : Z)
| PStr (s : string)
| PList (l : list pyval)
| PDict (d : list (string * pyval)).

Definition pydict : Type := list (string * pyval).

(** [bool(v)] *)
Definition truthy (v : pyval) : bool :=
  match v with
  | PNone => false
  | PBool b => b
  | PInt z => negb (z =? 0)%Z
  | PStr s => negb (is_empty s)
  | PList l => match l with [] => false | _ => true end
  | PDict d => match d with [] => false | _ => true end
  end.

(** [a or b] *)
Definition py_or (a b : pyval) : pyval := if truthy a then a else b.

(** [type(v).__name__] *)
Definition type_name (v : pyval) : string :=
  match v with
  | PNone => "NoneType"
  | PBool _ => "bool"
  | PInt _ => "int"
  | PStr _ => "str"
  | PList _ => "list"
  | PDict _ => "dict"
  end.

Definition is_str (v : pyval) : bool :=
  match v with PStr _ => true | _ => false end.
Definition is_list (v : pyval) : bool :=
  match v with PList _ => true | _ => false end.
Definition is_dict (v : pyval) : bool :=
  match v with PDict _ => true | _ => false end.

(** [v == "s"] for a string literal *)
Definition eq_str (v : pyval) (s : string) : bool :=
  match v with PStr t => String.eqb t s | _ => false end.

(** *** Dictionaries *)

(** [d.get(k, dflt)] *)
Fixpoint dict_get_default (d : pydict) (k : string) (dflt : pyval) : pyval :=
  match d with
  | [] => dflt
  | (k', v) :: d' => if String.eqb k' k then v else dict_get_default d' k dflt
  end.

(** [d.get(k)] *)
Definition dict_get (d : pydict) (k : string) : pyval :=
  dict_get_default d k PNone.

(** [k in d] *)
Fixpoint dict_mem {A : Type} (d : list (string * A)) (k : string) : bool :=
  match d with
  | [] => false
  | (k', _) :: d' => String.eqb k' k || dict_mem d' k
  end.

(** [d[k] = v]: an existing key keeps its place, a new one goes last *)
Fixpoint dict_set {A : Type} (d : list (string * A)) (k : string) (v : A)
  : list (string * A) :=
  match d with
  | [] => [(k, v)]
  | (k', v') :: d' =>
      if String.eqb k' k then (k', v) :: d' else (k', v') :: dict_set d' k v
  end.

(** [d.pop(k, None)] *)
Fixpoint dict_pop {A : Type} (d : list (string * A)) (k : string)
  : list (string * A) :=
  match d with
  | [] => []
  | (k', v') :: d' =>
      if String.eqb k' k then d' else (k', v') :: dict_pop d' k
  end.

(** [{k: v for k, v in items}] *)
Definition dict_of_items {A : Type} (items : list (string * A))
  : list (string * A) :=
  fold_left (fun d kv => dict_set d (fst kv) (snd kv)) items [].

(** *** [repr] and [str] *)

Definition printable (c : ascii) : bool :=
  let n := code c in
  ((32 <=? n) && (n <? 127)) || ((161 <=? n) && negb (n =? 173)).

Definition repr_char (quote : ascii) (c : ascii) : string :=
  if Ascii.eqb c quote || Ascii.eqb c "\"
  then String "\" (String c "")
  else if code c =? 9 then "\t"
  else if code c =? 10 then "\n"
  else if code c =? 13 then "\r"
  else if printable c then String c ""
  else "\x" ++ hex2 c.

Fixpoint repr_chars (quote : ascii) (s : string) : string :=
  match s with
  | "" => ""
  | String c s' => repr_char quote c ++ repr_chars quote s'
  end.

Definition squote : ascii := "'".
Definition dquote : ascii := ascii_of_nat 34.

(** [repr(s)] of a string: single quotes, unless the string holds a single
    quote and no double quote *)
Definition repr_str (s : string) : string :=
  let q := if contains (String squote "") s
              && negb (contains (String dquote "") s)
           then dquote else squote in
  String q (repr_chars q s ++ String q "").

Fixpoint py_repr (v : pyval) : string :=
  match v with
  | PNone => "None"
  | PBool true => "True"
  | PBool false => "False"
  | PInt z => str_of_Z z
  | PStr s => repr_str s
  | PList l => "[" ++ str_join ", " (map py_repr l) ++ "]"
  | PDict d =>
      "{" ++ str_join ", "
               (map (fun kv => repr_str (fst kv) ++ ": " ++ py_repr (snd kv)) d)
          ++ "}"
  end.

(** [str(v)] *)
Definition py_str (v : pyval) : string :=
  match v with
  | PStr s => s
  | _ => py_repr v
  end.

(** *** [json.dumps] *)

(** one character of a JSON string with [ensure_ascii=True] *)
Definition json_char (c : ascii) : string :=
  let n := code c in
  if n =? 34 then String "\" (String dquote "")
  else if n =? 92 then "\\"
  else if n =? 10 then "\n"
  else if n =? 13 then "\r"
  else if n =? 9 then "\t"
  else if n =? 8 then "\b"
  else if n =? 12 then "\f"
  else if (32 <=? n) && (n <=? 126) then String c ""
  else "\u00" ++ hex2 c.

Fixpoint json_chars (s : string) : string :=
  match s with
  | "" => ""
  | String c s' => json_char c ++ json_chars s'
  end.

Definition json_str (s : string) : string :=
  String dquote (json_chars s ++ String dquote "").

(** [json.dumps(v, ensure_ascii=True)] *)
Fixpoint json_dumps (v : pyval) : string :=
  match v with
  | PNone => "null"
  | PBool true => "true"
  | PBool false => "false"
  | PInt z => str_of_Z z
  | PStr s => json_str s
  | PList l => "[" ++ str_join ", " (map json_dumps l) ++ "]"
  | PDict d =>
      "{" ++ str_join ", "
               (map (fun kv => json_str (fst kv) ++ ": " ++ json_dumps (snd kv)) d)
          ++ "}"
  end.

Fixpoint spaces (n : nat) : string :=
  match n with O => "" | S k => " " ++ spaces k end.

(** a line break followed by the indentation of nesting level [lvl] *)
Definition newline_indent (lvl : nat) : string := nl ++ spaces (4 * lvl).

(** [json.dumps(v, indent=4)], at nesting level [lvl] *)
Fixpoint json_dumps_indent (lvl : nat) (v : pyval) : string :=
  match v with
  | PList [] => "[]"
  | PList l =>
      "[" ++ newline_indent (S lvl)
          ++ str_join ("," ++ newline_indent (S lvl))
               (map (json_dumps_indent (S lvl)) l)
          ++ newline_indent lvl ++ "]"
  | PDict [] => "{}"
  | PDict d =>
      "{" ++ newline_indent (S lvl)
          ++ str_join ("," ++ newline_indent (S lvl))
               (map (fun kv => json_str (fst kv) ++ ": "
                                 ++ json_dumps_indent (S lvl) (snd kv)) d)
          ++ newline_indent lvl ++ "}"
  | _ => json_dumps v
  end.

(** ** Exceptions and the error monad *)

Inductive exn : Type :=
| AttributeError (type attr : string)
    (* ['type' object has no attribute 'attr'] *)
| TypeError (msg : string)
| CursorConfigurationError (msg : string)
| ServiceConfigurationError (msg : string)
| RequestException (msg : string).
    (* what [requests.request] raises: ConnectionError, ConnectTimeout, ... *)

Inductive res (A : Type) : Type :=
| Ok (a : A)
| Raise (e : exn).

Arguments Ok {A} a.
Arguments Raise {A} e.

Definition bind {A B : Type} (m : res A) (k : A -> res B) : res B :=
  match m with
  | Ok a => k a
  | Raise e => Raise e
  end.

Declare Scope res_scope.
Delimit Scope res_scope with res.
Notation "x <- m ;; k" := (bind m (fun x => k))
  (at level 61, m at next level, right associativity) : res_scope.
Open Scope res_scope.

(** the loop [for x in l: ... f(x) ...] collecting one result per element and
    stopping at the first exception *)
Fixpoint mapM {A B : Type} (f : A -> res B) (l : list A) : res (list B) :=
  match l with
  | [] => Ok []
  | x :: xs => y <- f x ;; ys <- mapM f xs ;; Ok (y :: ys)
  end.

Definition is_ok {A : Type} (r : res A) : bool :=
  match r with Ok _ => true | Raise _ => false end.

(** [v.get(k, dflt)] on a value of any type: only a [dict] has [get] *)
Definition attr_get_default (v : pyval) (k : string) (dflt : pyval) : res pyval :=
  match v with
  | PDict d => Ok (dict_get_default d k dflt)
  | _ => Raise (AttributeError (type_name v) "get")
  end.

(** [v.get(k)] *)
Definition attr_get (v : pyval) (k : string) : res pyval :=
  attr_get_default v k PNone.

(** [v in {s1, s2, ...}] for a set of string literals: the value is hashed
    first, and a [list] or a [dict] has no hash *)
Definition in_str_set (v : pyval) (set : list string) : res bool :=
  match v with
  | PList _ | PDict _ =>
      Raise (TypeError ("unhashable type: '" ++ type_name v ++ "'"))
  | PStr s => Ok (existsb (String.eqb s) set)
  | _ => Ok false
  end.

Fixpoint chars_of (s : string) : list pyval :=
  match s with
  | "" => []
  | String c s' => PStr (String c "") :: chars_of s'
  end.

(** the elements [for x in v] visits *)
Definition py_iter (v : pyval) : res (list pyval) :=
  match v with
  | PList l => Ok l
  | PStr s => Ok (chars_of s)
  | PDict d => Ok (map (fun kv => PStr (fst kv)) d)
  | _ => Raise (TypeError ("'" ++ type_name v ++ "' object is not iterable"))
  end.

(** ** Requests, responses and the outside world *)

(** The Flask request, as far as the adapter reads it: its headers and what
    [req.get_json(silent=True, force=False)] returns ([PNone] when the body
    is not JSON). *)
Record Request : Type := {
  req_headers : list (string * string);
  req_json : pyval
}.

(** [current_app.config] *)
Record Settings : Type := {
  AZURE_API_KEY : string;
  AZURE_DEPLOYMENT : string;
  AZURE_SUMMARY_LEVEL : string;
  AZURE_VERBOSITY_LEVEL : string;
  AZURE_TRUNCATION : string;
  AZURE_RESPONSES_API_URL : string
}.

(** the keyword arguments of [requests.request] *)
Record request_kwargs : Type := {
  kw_method : string;
  kw_url : string;
  kw_headers : list (string * string);
  kw_json : pydict;
  kw_data : pyval;
  kw_stream : bool;
  kw_timeout : Z * option Z
}.

(** the vendor's reply: [json_body] is what [resp.json()] returns, [None]
    when it raises [ValueError] *)
Record upstream_response : Type := {
  status_code : Z;
  json_body : option pyval;
  text : string
}.

(** the Flask response handed back to the caller *)
Record Response : Type := {
  resp_body : string;
  resp_status : Z
}.

(** what the adapter does to the outside world, in order *)
Inductive event : Type :=
| RecordPayload (payload : pydict) (tag : string)
| HttpRequest (kw : request_kwargs)
| ConsoleRule (title : string)
| ConsolePrint (msg : string).

(** The collaborators the adapter is composed with: the configuration, the
    network ([requests.request], which returns a reply or raises) and the
    response translator of [response_adapter.py]. *)
Record env : Type := {
  settings : Settings;
  upstream : request_kwargs -> res upstream_response;
  response_adapt : upstream_response -> Response
}.

(** the per-request state of [AzureAdapter] and the events so far *)
Record world : Type := {
  inbound_model : pyval;
  trace : list event
}.

Definition io (A : Type) : Type := world -> world * res A.

Definition io_ret {A : Type} (a : A) : io A := fun w => (w, Ok a).

Definition io_bind {A B : Type} (m : io A) (k : A -> io B) : io B :=
  fun w =>
    match m w with
    | (w', Ok a) => k a w'
    | (w', Raise e) => (w', Raise e)
    end.

Definition lift {A : Type} (r : res A) : io A := fun w => (w, r).

Definition set_inbound_model (v : pyval) : io unit :=
  fun w => ({| inbound_model := v; trace := trace w |}, Ok tt).

Definition emit (e : event) : io unit :=
  fun w => ({| inbound_model := inbound_model w; trace := trace w ++ [e] |},
            Ok tt).

Declare Scope io_scope.
Delimit Scope io_scope with io.
Notation "x <- m ;; k" := (io_bind m (fun x => k))
  (at level 61, m at next level, right associativity) : io_scope.
Notation "m ;;; k" := (io_bind m (fun _ => k))
  (at level 61, right associativity) : io_scope.

Definition is_http (e : event) : bool :=
  match e with HttpRequest _ => true | _ => false end.

(** the number of outbound calls in a trace *)
Definition outbound_calls (t : list event) : nat :=
  List.length (filter is_http t).

(** ** [request_adapter.py] *)

Module RequestAdapter.

(** [_copy_request_headers_for_azure] *)
Definition _copy_request_headers_for_azure
  (src : Request) (api_key : string) : list (string * string) :=
  let headers := dict_of_items (req_headers src) in
  let headers := dict_pop headers "Host" in
  let headers := dict_pop headers "Authorization" in
  dict_set headers "api-key" api_key.

(** [d.get("text") or d.get("content")]: the second lookup runs only when
    the first value is falsy *)
Definition text_or_content (d : pyval) : res pyval :=
  t <- attr_get d "text" ;;
  if truthy t then Ok t else attr_get d "content".

(** the body of the loop over a list-shaped content: what is appended to
    [parts] for one part, if anything *)
Definition part_to_text (part : pyval) : res (option string) :=
  match part with
  | PStr s => Ok (Some s)
  | PDict _ =>
      text_value <- text_or_content part ;;
      match text_value with
      | PNone => Ok None
      | _ => Ok (Some (py_str text_value))
      end
  | _ => Ok (Some (py_str part))
  end.

Fixpoint somes {A : Type} (l : list (option A)) : list A :=
  match l with
  | [] => []
  | Some x :: l' => x :: somes l'
  | None :: l' => somes l'
  end.

(** [_content_to_text] *)
Definition _content_to_text (content : pyval) : res string :=
  match content with
  | PNone => Ok ""
  | PStr s => Ok s
  | PList l =>
      parts <- mapM part_to_text l ;;
      Ok (str_join nl (filter (fun part => negb (is_empty part)) (somes parts)))
  | PDict _ =>
      text_value <- text_or_content content ;;
      match text_value with
      | PNone => Ok (json_dumps content)
      | _ => Ok (py_str text_value)
      end
  | _ => Ok (py_str content)
  end.

(** the [function_call] item of one entry of [tool_calls] *)
Definition tool_call_item (tool_call : pyval) : res pyval :=
  function <- attr_get_default tool_call "function" (PDict []) ;;
  call_id <- attr_get tool_call "id" ;;
  name <- attr_get function "name" ;;
  arguments <- attr_get function "arguments" ;;
  Ok (PDict [("type", PStr "function_call");
             ("name", name);
             ("arguments", arguments);
             ("call_id", call_id)]).

(** One turn of the loop over [messages]: the accumulators are
    [instructions_parts] and [input_items]. *)
Definition message_step (acc : list string * list pyval) (m : pyval)
  : res (list string * list pyval) :=
  let (instructions_parts, input_items) := acc in
  role <- attr_get m "role" ;;
  raw <- attr_get m "content" ;;
  content <- _content_to_text raw ;;
  is_instruction <- in_str_set role ["system"; "developer"] ;;
  if is_instruction then
    Ok ((instructions_parts ++ [content])%list, input_items)
  else if eq_str role "tool" then
    call_id <- attr_get m "tool_call_id" ;;
    let item := PDict [("type", PStr "function_call_output");
                       ("output", PStr content);
                       ("status", PStr "completed");
                       ("call_id", call_id)] in
    Ok (instructions_parts, (input_items ++ [item])%list)
  else
    let item :=
      PDict [("role", py_or role (PStr "user"));
             ("content",
              PList [PDict [("type", PStr (if eq_str role "user"
                                           then "input_text"
                                           else "output_text"));
                            ("text", PStr content)]])] in
    tool_calls <- attr_get m "tool_calls" ;;
    if truthy tool_calls then
      calls <- py_iter tool_calls ;;
      items <- mapM tool_call_item calls ;;
      Ok (instructions_parts, (input_items ++ [item] ++ items)%list)
    else
      Ok (instructions_parts, (input_items ++ [item])%list).

Fixpoint foldM {A B : Type} (f : A -> B -> res A) (a : A) (l : list B)
  : res A :=
  match l with
  | [] => Ok a
  | x :: xs => a' <- f a x ;; foldM f a' xs
  end.

(** [_messages_to_responses_input_and_instructions] *)
Definition _messages_to_responses_input_and_instructions
  (messages : list pyval) : res pydict :=
  acc <- foldM message_step ([], []) messages ;;
  let (instructions_parts, input_items) := acc in
  let instructions :=
    match instructions_parts with
    | [] => PNone
    | _ => PStr (str_join (nl ++ nl) instructions_parts)
    end in
  Ok [("instructions", instructions);
      ("input", match input_items with [] => PNone | _ => PList input_items end)].

(** one turn of the loop of [_transform_tools_for_responses] *)
Definition transform_tool (tool : pyval) : res pyval :=
  function <- attr_get tool "function" ;;
  name <- attr_get function "name" ;;
  description <- attr_get function "description" ;;
  parameters <- attr_get function "parameters" ;;
  Ok (PDict [("type", PStr "function");
             ("name", name);
             ("description", description);
             ("parameters", parameters);
             ("strict", PBool false)]).

(** [_transform_tools_for_responses]; the debug log line of the first branch
    is not modelled *)
Definition _transform_tools_for_responses (tools : pyval) : res (list pyval) :=
  match tools with
  | PList l => mapM transform_tool l
  | _ => Ok []
  end.

(** [inbound_model.replace("gpt-", "").lower()]: only a [str] has [replace] *)
Definition reasoning_effort_of (inbound_model : pyval) : res string :=
  match inbound_model with
  | PStr s => Ok (str_lower (str_replace s "gpt-" ""))
  | _ => Raise (AttributeError (type_name inbound_model) "replace")
  end.

Definition efforts : list string := ["high"; "medium"; "low"; "minimal"].

Definition in_set (s : string) (set : list string) : bool :=
  existsb (String.eqb s) set.

Definition model_error_message (inbound_model : pyval) : string :=
  "Model name must be either gpt-high, gpt-medium, gpt-low, or gpt-minimal."
  ++ nl ++ nl ++ "Got: " ++ py_str inbound_model.

Definition summary_error_message (level : string) : string :=
  "AZURE_SUMMARY_LEVEL must be either auto, detailed, or concise."
  ++ nl ++ nl ++ "Got: " ++ level.

(** The part of [adapt] after the per-request state is written: from the
    copy of the headers to the returned keyword arguments. *)
Definition build_kwargs (cfg : Settings) (req : Request)
  (payload inbound_model : pyval) : res request_kwargs :=
  let upstream_headers :=
    _copy_request_headers_for_azure req (AZURE_API_KEY cfg) in
  raw_messages <- attr_get payload "messages" ;;
  let messages := py_or raw_messages (PList []) in
  responses_body <-
    match messages with
    | PList l => _messages_to_responses_input_and_instructions l
    | _ => Ok [("input", PNone); ("instructions", PNone)]
    end ;;
  let responses_body :=
    dict_set responses_body "model" (PStr (AZURE_DEPLOYMENT cfg)) in
  raw_tools <- attr_get_default payload "tools" (PList []) ;;
  tools <- _transform_tools_for_responses raw_tools ;;
  let responses_body := dict_set responses_body "tools" (PList tools) in
  tool_choice <- attr_get payload "tool_choice" ;;
  let responses_body := dict_set responses_body "tool_choice" tool_choice in
  user <- attr_get payload "user" ;;
  let responses_body := dict_set responses_body "prompt_cache_key" user in
  let responses_body := dict_set responses_body "stream" (PBool true) in
  reasoning_effort <- reasoning_effort_of inbound_model ;;
  if negb (in_set reasoning_effort efforts) then
    Raise (CursorConfigurationError (model_error_message inbound_model))
  else
  let reasoning := [("effort", PStr reasoning_effort)] in
  if negb (in_set (AZURE_SUMMARY_LEVEL cfg) ["auto"; "detailed"; "concise"])
  then
    Raise (ServiceConfigurationError
             (summary_error_message (AZURE_SUMMARY_LEVEL cfg)))
  else
  let reasoning :=
    dict_set reasoning "summary" (PStr (AZURE_SUMMARY_LEVEL cfg)) in
  let responses_body := dict_set responses_body "reasoning" (PDict reasoning) in
  let responses_body :=
    if in_set (AZURE_VERBOSITY_LEVEL cfg) ["low"; "high"]
    then dict_set responses_body "text"
           (PDict [("verbosity", PStr (AZURE_VERBOSITY_LEVEL cfg))])
    else responses_body in
  let responses_body := dict_set responses_body "store" (PBool false) in
  let responses_body :=
    dict_set responses_body "stream_options"
      (PDict [("include_obfuscation", PBool false)]) in
  let responses_body :=
    if String.eqb (AZURE_TRUNCATION cfg) "auto"
    then dict_set responses_body "truncation" (PStr (AZURE_TRUNCATION cfg))
    else responses_body in
  Ok {| kw_method := "POST";
        kw_url := AZURE_RESPONSES_API_URL cfg;
        kw_headers := upstream_headers;
        kw_json := responses_body;
        kw_data := PNone;
        kw_stream := true;
        kw_timeout := (60%Z, None) |}.

(** [adapt]: the shared [inbound_model] is reset, then set from the payload,
    before anything that can raise. *)
Definition adapt (cfg : Settings) (req : Request) : io request_kwargs :=
  (set_inbound_model PNone ;;;
   let payload := req_json req in
   let inbound_model :=
     match payload with
     | PDict d => dict_get d "model"
     | _ => PNone
     end in
   set_inbound_model inbound_model ;;;
   lift (build_kwargs cfg req payload inbound_model))%io.

End RequestAdapter.

(** ** The two [re.sub] calls of the error reporter

    A backtracking matcher for the constructs the two patterns use: literal
    characters, [.] (any character but a line break), concatenation,
    capturing groups (not nested, numbered from the left) and [.*] / [.*?].
    Neither pattern matches the empty string, and [sub] relies on it. *)

Module Re.

Inductive regex : Type :=
| Lit (c : ascii)
| Any
| Seq (r1 r2 : regex)
| Group (r : regex)
| Star (greedy : bool).

Definition not_lf (c : ascii) : bool := negb (Ascii.eqb c LF).

(** A continuation receives the text matched by the item just finished, the
    rest of the input and the captures so far; [None] asks to backtrack. *)
Definition cont (T : Type) : Type := string -> string -> list string -> option T.

(** [.*] (greedy: longest first) and [.*?] (lazy: shortest first) *)
Fixpoint star {T : Type} (greedy : bool) (s acc : string)
  (caps : list string) (k : cont T) : option T :=
  match s with
  | String c s' =>
      if not_lf c then
        if greedy then
          match star greedy s' (acc ++ String c "") caps k with
          | Some x => Some x
          | None => k acc s caps
          end
        else
          match k acc s caps with
          | Some x => Some x
          | None => star greedy s' (acc ++ String c "") caps k
          end
      else k acc s caps
  | "" => k acc s caps
  end.

Fixpoint run {T : Type} (r : regex) (s : string) (caps : list string)
  (k : cont T) : option T :=
  match r with
  | Lit c =>
      match s with
      | String c' s' => if Ascii.eqb c c' then k (String c' "") s' caps else None
      | "" => None
      end
  | Any =>
      match s with
      | String c' s' => if not_lf c' then k (String c' "") s' caps else None
      | "" => None
      end
  | Seq r1 r2 =>
      run r1 s caps (fun m1 rest1 caps1 =>
        run r2 rest1 caps1 (fun m2 rest2 caps2 => k (m1 ++ m2) rest2 caps2))
  | Group r' => run r' s caps (fun m rest caps' => k m rest (caps' ++ [m])%list)
  | Star greedy => star greedy s "" caps k
  end.

(** a match anchored at the start of [s]: the matched text and the groups *)
Definition match_at (r : regex) (s : string) : option (string * list string) :=
  run r s [] (fun m _ caps => Some (m, caps)).

(** a replacement template: text and back-references [\n] *)
Inductive piece : Type :=
| Text (s : string)
| Backref (n : nat).

Fixpoint expand (tpl : list piece) (caps : list string) : string :=
  match tpl with
  | [] => ""
  | Text s :: tpl' => s ++ expand tpl' caps
  | Backref n :: tpl' => nth (n - 1) caps "" ++ expand tpl' caps
  end.

(** [re.sub]: scan from the left; where the pattern matches, write the
    expanded template and resume after the match ([skip] counts the matched
    characters still to pass over); elsewhere copy the character. *)
Fixpoint sub_from (r : regex) (tpl : list piece) (skip : nat) (s : string)
  : string :=
  match s with
  | "" => ""
  | String c s' =>
      match skip with
      | S k => sub_from r tpl k s'
      | O =>
          match match_at r s with
          | Some (m, caps) =>
              expand tpl caps ++ sub_from r tpl (String.length m - 1) s'
          | None => String c (sub_from r tpl 0 s')
          end
      end
  end.

Definition sub (r : regex) (tpl : list piece) (s : string) : string :=
  sub_from r tpl 0 s.

End Re.

(** ** [adapter.py] *)

Module AzureAdapter.

Import Re.

Definition any3 : regex := Seq Any (Seq Any Any).

(** the pattern of the cache key: three characters, a greedy run of any
    characters, three characters; each of the three is a group *)
Definition key_pattern : regex :=
  Seq (Group any3) (Seq (Group (Star true)) (Group any3)).

(** the pattern of the endpoint: two slashes and a character, a lazy run of
    any characters, a character and a dot; each of the three is a group *)
Definition endpoint_pattern : regex :=
  Seq (Group (Seq (Lit "/") (Seq (Lit "/") Any)))
      (Seq (Group (Star false)) (Group (Seq Any (Lit ".")))).

(** the replacement of both: group 1, three asterisks, group 3 *)
Definition mask_template : list piece := [Backref 1; Text "***"; Backref 3].

(** the redaction of [body["prompt_cache_key"]] *)
Definition redact_prompt_cache_key (key : pyval) : string :=
  sub key_pattern mask_template
      (py_str (py_or key (PStr "no prompt_cache_key"))).

(** the redaction of the endpoint *)
Definition redact_endpoint (url : string) : string :=
  sub endpoint_pattern mask_template url.

(** [len(v) if isinstance(v, list) else 0 if not v else 1] *)
Definition count_of (v : pyval) : nat :=
  match v with
  | PList l => List.length l
  | _ => if negb (truthy v) then 0 else 1
  end.

(** the request body as the report shows it *)
Definition redact_body (body : pydict) : pydict :=
  let instructions := dict_get body "instructions" in
  let instructions_preview :=
    if negb (truthy instructions) then "no instructions"
    else py_str instructions in
  let body :=
    dict_set body "instructions" (PStr (str_take 16 instructions_preview ++ "...")) in
  let tools_count := count_of (dict_get body "tools") in
  let body :=
    dict_set body "tools"
      (PStr ("...redacted " ++ str_of_nat tools_count ++ " tools...")) in
  let input_count := count_of (dict_get body "input") in
  let body :=
    dict_set body "input"
      (PStr ("...redacted " ++ str_of_nat input_count ++ " input items...")) in
  dict_set body "prompt_cache_key"
    (PStr (redact_prompt_cache_key (dict_get body "prompt_cache_key"))).

Definition report_of (resp : upstream_response) (kw : request_kwargs) : pyval :=
  let resp_content :=
    match json_body resp with
    | Some j => j
    | None => PStr (text resp)
    end in
  PDict [("endpoint", PStr (redact_endpoint (kw_url kw)));
         ("azure_status_code", PInt (status_code resp));
         ("azure_response", resp_content);
         ("request_body", PDict (redact_body (kw_json kw)))].

Definition error_message_of (report : pyval) : string :=
  let report_pretty :=
    str_replace (json_dumps_indent 0 report) nl (nl ++ tab) in
  nl ++ "Check " ++ String dquote "azure_response"
     ++ String dquote " for the error details:" ++ nl
     ++ tab ++ report_pretty ++ nl
     ++ "If the issue persists, report it to:" ++ nl
     ++ tab ++ "https://github.com/gabrii/Cursor-Azure-GPT-5/issues" ++ nl
     ++ "Including all the details above".

(** [_handle_azure_error] *)
Definition _handle_azure_error (resp : upstream_response) (kw : request_kwargs)
  : io Response :=
  (let error_message := error_message_of (report_of resp kw) in
   emit (ConsoleRule ("[red]Request failed with status code "
                        ++ str_of_Z (status_code resp) ++ "[/red]")) ;;;
   emit (ConsolePrint error_message) ;;;
   io_ret {| resp_body := error_message;
             resp_status := if negb (status_code resp =? 401)%Z
                            then status_code resp else 400%Z |})%io.

(** [forward] *)
Definition forward (E : env) (req : Request) : io Response :=
  (request_kwargs <- RequestAdapter.adapt (settings E) req ;;
   emit (RecordPayload (kw_json request_kwargs) "upstream_request") ;;;
   emit (HttpRequest request_kwargs) ;;;
   resp <- lift (upstream E request_kwargs) ;;
   if negb (status_code resp =? 200)%Z
   then _handle_azure_error resp request_kwargs
   else io_ret (response_adapt E resp))%io.

End AzureAdapter.

(** ** Vocabulary of the statements *)

Import RequestAdapter AzureAdapter.

(** the text of a content value: [_content_to_text] never raises
    (see [content_to_text_total]) *)
Definition text_of (content : pyval) : string :=
  match _content_to_text content with
  | Ok s => s
  | Raise _ => ""
  end.

(** a message whose role is [system] or [developer] *)
Definition is_instruction (m : pyval) : bool :=
  match m with
  | PDict d =>
      match dict_get d "role" with
      | PStr r => in_set r ["system"; "developer"]
      | _ => false
      end
  | _ => false
  end.

(** the normalized contents of the system and developer messages, in order *)
Definition instruction_texts (messages : list pyval) : list string :=
  map (fun m => match m with
                | PDict d => text_of (dict_get d "content")
                | _ => ""
                end)
      (filter is_instruction messages).

Definition hashable (v : pyval) : bool := negb (is_list v || is_dict v).

(** an entry of [tool_calls] the loop accepts: an object whose [function],
    when given, is an object *)
Definition wf_tool_call (tool_call : pyval) : bool :=
  match tool_call with
  | PDict d => is_dict (dict_get_default d "function" (PDict []))
  | _ => false
  end.

(** a [tool_calls] value the loop accepts: falsy, or a list of such entries *)
Definition wf_tool_calls (v : pyval) : bool :=
  if truthy v then
    match v with
    | PList l => forallb wf_tool_call l
    | _ => false
    end
  else true.

(** a message the loop of line 74 accepts: an object with a hashable role
    and, unless it is an instruction or a tool result, acceptable
    [tool_calls] *)
Definition wf_message (m : pyval) : bool :=
  match m with
  | PDict d =>
      let role := dict_get d "role" in
      hashable role
      && (is_instruction m || eq_str role "tool"
          || wf_tool_calls (dict_get d "tool_calls"))
  | _ => false
  end.

(** no line break in the string *)
Fixpoint no_lf (s : string) : bool :=
  match s with
  | "" => true
  | String c s' => Re.not_lf c && no_lf s'
  end.

(** the exceptions no handler of the translator turns into a caller-facing
    error *)
Definition unhandled (e : exn) : bool :=
  match e with
  | AttributeError _ _ | TypeError _ => true
  | _ => false
  end.

(** a request body without a usable model: not an object, or an object whose
    [model] is missing or is not a string *)
Definition lacks_model (payload : pyval) : bool :=
  match payload with
  | PDict d => negb (is_str (dict_get d "model"))
  | _ => true
  end.

Definition with_verbosity (cfg : Settings) (v : string) : Settings :=
  {| AZURE_API_KEY := AZURE_API_KEY cfg;
     AZURE_DEPLOYMENT := AZURE_DEPLOYMENT cfg;
     AZURE_SUMMARY_LEVEL := AZURE_SUMMARY_LEVEL cfg;
     AZURE_VERBOSITY_LEVEL := v;
     AZURE_TRUNCATION := AZURE_TRUNCATION cfg;
     AZURE_RESPONSES_API_URL := AZURE_RESPONSES_API_URL cfg |}.

(** The reasoning effort as the specification words it: the fixed prefix
    [gpt-] is stripped from the model name, once and at its start only, and
    the remainder lowercased; it must be one of the four efforts. *)
Definition spec_effort (model : string) : option string :=
  let remainder :=
    if prefix "gpt-" model then str_drop 4 model else model in
  if in_set (str_lower remainder) efforts
  then Some (str_lower remainder) else None.

(** the reasoning effort of the outbound body of a translation *)
Definition effort_of (r : res request_kwargs) : res pyval :=
  match r with
  | Ok kw =>
      match dict_get (kw_json kw) "reasoning" with
      | PDict reasoning => Ok (dict_get reasoning "effort")
      | _ => Ok PNone
      end
  | Raise e => Raise e
  end.

(** a computation that raises nothing but unhandled exceptions *)
Definition raises_only_unhandled {A : Type} (r : res A) : Prop :=
  match r with
  | Ok _ => True
  | Raise e => unhandled e = true
  end.

(** a computation that ends with an unhandled exception *)
Definition fails_unhandled {A : Type} (r : res A) : Prop :=
  match r with
  | Ok _ => False
  | Raise e => unhandled e = true
  end.

(** the body of the response [forward] returned, if it returned one *)
Definition reply_body (r : world * res Response) : string :=
  match snd r with
  | Ok resp => resp_body resp
  | Raise _ => ""
  end.

(** ** Sample inputs *)

Definition sample_settings : Settings :=
  {| AZURE_API_KEY := "secret";
     AZURE_DEPLOYMENT := "gpt-5";
     AZURE_SUMMARY_LEVEL := "auto";
     AZURE_VERBOSITY_LEVEL := "medium";
     AZURE_TRUNCATION := "disabled";
     AZURE_RESPONSES_API_URL :=
       "https://myresource.openai.azure.com/openai/responses" |}.

Definition user_message (content : string) : pyval :=
  PDict [("role", PStr "user"); ("content", PStr content)].

Definition system_message (content : string) : pyval :=
  PDict [("role", PStr "system"); ("content", PStr content)].

(** a chat request with one user message *)
Definition chat_request (model : string) (user : pyval) : Request :=
  {| req_headers := [("Host", "localhost"); ("Authorization", "Bearer x")];
     req_json := PDict [("model", PStr model);
                        ("messages", PList [user_message "hi"]);
                        ("user", user)] |}.

Definition canned_reply (status : Z) : upstream_response :=
  {| status_code := status; json_body := None; text := "denied" |}.

Definition no_stream : upstream_response -> Response :=
  fun _ => {| resp_body := ""; resp_status := 200%Z |}.

(** a vendor that answers every call with the given status *)
Definition env_replying (status : Z) : env :=
  {| settings := sample_settings;
     upstream := fun _ => Ok (canned_reply status);
     response_adapt := no_stream |}.

(** a vendor that cannot be reached *)
Definition env_unreachable : env :=
  {| settings := sample_settings;
     upstream := fun _ => Raise (RequestException "ConnectionError");
     response_adapt := no_stream |}.

Definition world0 : world := {| inbound_model := PNone; trace := [] |}.

(** ** Vocabulary of the further properties *)

(** the value a dictionary holds for a key, if any *)
Fixpoint assoc_get {A : Type} (d : list (string * A)) (k : string) : option A :=
  match d with
  | [] => None
  | (k', v) :: d' => if String.eqb k' k then Some v else assoc_get d' k
  end.

(** the last value a sequence of items gives to a key, if any *)
Definition assoc_last {A : Type} (items : list (string * A)) (k : string)
  : option A :=
  assoc_get (rev items) k.

(** the keys of a dictionary are distinct *)
Definition distinct_keys {A : Type} (d : list (string * A)) : Prop :=
  NoDup (map fst d).

(** the input items of a translated body ([None] stands for no item) *)
Definition input_items (body : pydict) : list pyval :=
  match dict_get body "input" with
  | PList items => items
  | _ => []
  end.

(** [v.get(k)] read as a value: [None] when [v] is no object *)
Definition field (v : pyval) (k : string) : pyval :=
  match v with
  | PDict d => dict_get d k
  | _ => PNone
  end.

(** [item] is the flattened form of the tool definition [tool] *)
Definition flattened (tool item : pyval) : Prop :=
  item = PDict [("type", PStr "function");
                ("name", field (field tool "function") "name");
                ("description", field (field tool "function") "description");
                ("parameters", field (field tool "function") "parameters");
                ("strict", PBool false)].

(** a tool definition the loop of line 130 accepts: an object whose
    [function] is an object *)
Definition wf_tool (tool : pyval) : bool :=
  match tool with
  | PDict d => is_dict (dict_get d "function")
  | _ => false
  end.

(** [item] is the [function_call] item of the entry [tool_call] of
    [tool_calls] *)
Definition call_flattened (tool_call item : pyval) : Prop :=
  item = PDict [("type", PStr "function_call");
                ("name", field (field tool_call "function") "name");
                ("arguments", field (field tool_call "function") "arguments");
                ("call_id", field tool_call "id")].

(** the conversation turn of a message that is neither an instruction nor a
    tool result *)
Definition turn_of (m : pyval) : pyval :=
  PDict [("role", py_or (field m "role") (PStr "user"));
         ("content",
          PList [PDict [("type", PStr (if eq_str (field m "role") "user"
                                       then "input_text" else "output_text"));
                        ("text", PStr (text_of (field m "content")))]])].

(** the [function_call_output] item of a tool result *)
Definition output_of (m : pyval) : pyval :=
  PDict [("type", PStr "function_call_output");
         ("output", PStr (text_of (field m "content")));
         ("status", PStr "completed");
         ("call_id", field m "tool_call_id")].

(** the instructions of two bodies, put one after the other *)
Definition join_instructions (i1 i2 : pyval) : pyval :=
  match i1, i2 with
  | PNone, _ => i2
  | _, PNone => i1
  | PStr s1, PStr s2 => PStr (s1 ++ nl ++ nl ++ s2)
  | _, _ => i1
  end.

(** the number of tool definitions of a request body: those of a list, none
    otherwise *)
Definition tool_count (tools : pyval) : nat :=
  match tools with
  | PList l => List.length l
  | _ => 0
  end.

(** a text part of a list-shaped content *)
Definition text_part (s : string) : pyval :=
  PDict [("type", PStr "text"); ("text", PStr s)].

Definition nonempty (s : string) : bool := negb (is_empty s).

(** the character does not occur in the string *)
Fixpoint lacks (c : ascii) (s : string) : bool :=
  match s with
  | "" => true
  | String c' s' => negb (Ascii.eqb c' c) && lacks c s'
  end.

(** a character followed by a literal dot: the third group of the pattern
    of the endpoint *)
Definition char_dot : Re.regex := Re.Seq Re.Any (Re.Lit ".").

(** an event that writes to the console *)
Definition is_console (e : event) : bool :=
  match e with
  | ConsoleRule _ | ConsolePrint _ => true
  | _ => false
  end.

Definition with_truncation (cfg : Settings) (t : string) : Settings :=
  {| AZURE_API_KEY := AZURE_API_KEY cfg;
     AZURE_DEPLOYMENT := AZURE_DEPLOYMENT cfg;
     AZURE_SUMMARY_LEVEL := AZURE_SUMMARY_LEVEL cfg;
     AZURE_VERBOSITY_LEVEL := AZURE_VERBOSITY_LEVEL cfg;
     AZURE_TRUNCATION := t;
     AZURE_RESPONSES_API_URL := AZURE_RESPONSES_API_URL cfg |}.

(** the model a request body names: what [adapt] stores as [inbound_model] *)
Definition model_of (payload : pyval) : pyval :=
  match payload with
  | PDict d => dict_get d "model"
  | _ => PNone
  end.

(** the body [adapt] starts from, given the [messages] of the request:
    lines 166 to 172 *)
Definition initial_body_of (messages : pyval) : res pydict :=
  match py_or messages (PList []) with
  | PList l => _messages_to_responses_input_and_instructions l
  | _ => Ok [("input", PNone); ("instructions", PNone)]
  end.

(** a message that is an object with the given role *)
Definition has_role (m : pyval) (role : string) : bool :=
  match m with
  | PDict d => eq_str (dict_get d "role") role
  | _ => false
  end.

Definition tool_message (call_id content : string) : pyval :=
  PDict [("role", PStr "tool"); ("tool_call_id", PStr call_id);
         ("content", PStr content)].

Definition assistant_calling (calls : list pyval) : pyval :=
  PDict [("role", PStr "assistant"); ("content", PNone);
         ("tool_calls", PList calls)].

Definition sample_call (id name arguments : string) : pyval :=
  PDict [("id", PStr id); ("type", PStr "function");
         ("function", PDict [("name", PStr name);
                             ("arguments", PStr arguments)])].

Definition sample_tool (name : string) : pyval :=
  PDict [("type", PStr "function");
         ("function", PDict [("name", PStr name);
                             ("description", PStr "a tool");
                             ("parameters", PDict [])])].

(** ** The content normalizer *)

Section Normalizer.

Lemma attr_get_dict (d : pydict) (k : string) :
  attr_get (PDict d) k = Ok (dict_get d k).
Proof. reflexivity. Qed.

Lemma text_or_content_dict (d : pydict) :
  text_or_content (PDict d)
  = Ok (if truthy (dict_get d "text") then dict_get d "text"
        else dict_get d "content").
Proof.
  unfold text_or_content. rewrite attr_get_dict. cbn.
  destruct (truthy (dict_get d "text")); reflexivity.
Qed.

Lemma part_to_text_total (part : pyval) :
  exists o, part_to_text part = Ok o.
Proof.
  destruct part; cbn [part_to_text]; eauto.
  rewrite text_or_content_dict. cbn [bind].
  destruct (if truthy (dict_get d "text") then _ else _); eauto.
Qed.

Lemma mapM_total {A B : Type} (f : A -> res B) (l : list A) :
  (forall x, exists y, f x = Ok y) -> exists ys, mapM f l = Ok ys.
Proof.
  intros Hf. induction l as [|x xs [ys IH]]; cbn.
  - eauto.
  - destruct (Hf x) as [y ->]. cbn. rewrite IH. cbn. eauto.
Qed.

Lemma content_to_text_total (content : pyval) :
  exists s, _content_to_text content = Ok s.
Proof.
  destruct content; cbn [_content_to_text]; eauto.
  - destruct (mapM_total part_to_text l part_to_text_total) as [parts ->].
    cbn. eauto.
  - rewrite text_or_content_dict. cbn [bind].
    destruct (if truthy (dict_get d "text") then _ else _); eauto.
Qed.

Lemma content_to_text_text_of (content : pyval) :
  _content_to_text content = Ok (text_of content).
Proof.
  unfold text_of. destruct (content_to_text_total content) as [s ->].
  reflexivity.
Qed.

End Normalizer.

(** C7.  The content normalizer is total and deterministic: on a content value
    of any shape (absent, string, list of mixed parts, object, anything else)
    it returns a string and raises nothing, it returns one string only, and
    an absent value gives the empty string. *)
Theorem content_normalizer_total :
  (forall content, exists s, _content_to_text content = Ok s)
  /\ (forall content s1 s2,
        _content_to_text content = Ok s1 ->
        _content_to_text content = Ok s2 -> s1 = s2)
  /\ _content_to_text PNone = Ok "".
Proof.
  split; [exact content_to_text_total|]. split; [|reflexivity].
  intros content s1 s2 H1 H2. rewrite H1 in H2. now inversion H2.
Qed.

(** ** The orchestrator *)

Section Orchestrator.

Variable E : env.
Variable req : Request.

(** [adapt] writes the shared model and nothing else: it adds no event. *)
Lemma adapt_unfold (cfg : Settings) (w : world) :
  adapt cfg req w
  = ({| inbound_model := match req_json req with
                         | PDict d => dict_get d "model"
                         | _ => PNone
                         end;
        trace := trace w |},
     build_kwargs cfg req (req_json req)
       match req_json req with
       | PDict d => dict_get d "model"
       | _ => PNone
       end).
Proof. reflexivity. Qed.

Lemma adapt_trace (cfg : Settings) (w : world) :
  trace (fst (adapt cfg req w)) = trace w.
Proof. rewrite adapt_unfold. reflexivity. Qed.

(** a failed translation ends [forward] on the spot *)
Lemma forward_adapt_raise (w w1 : world) (e : exn) :
  adapt (settings E) req w = (w1, Raise e) ->
  forward E req w = (w1, Raise e).
Proof. intros H. unfold forward, io_bind. now rewrite H. Qed.

(** after a successful translation: the payload is recorded, the call is
    issued, and the reply decides the rest *)
Lemma forward_adapt_ok (w w1 : world) (kw : request_kwargs) :
  adapt (settings E) req w = (w1, Ok kw) ->
  forward E req w
  = let w2 := {| inbound_model := inbound_model w1;
                 trace := (trace w1
                           ++ [RecordPayload (kw_json kw) "upstream_request"])
                           ++ [HttpRequest kw] |} in
    match upstream E kw with
    | Raise e => (w2, Raise e)
    | Ok resp =>
        if negb (status_code resp =? 200)%Z
        then _handle_azure_error resp kw w2
        else (w2, Ok (response_adapt E resp))
    end.
Proof.
  intros H. unfold forward, io_bind. rewrite H.
  unfold emit, lift. cbv beta iota zeta.
  destruct (upstream E kw) as [resp|e]; [|reflexivity].
  destruct (negb (status_code resp =? 200)%Z); reflexivity.
Qed.

Lemma handle_azure_error_unfold (resp : upstream_response)
  (kw : request_kwargs) (w : world) :
  _handle_azure_error resp kw w
  = ({| inbound_model := inbound_model w;
        trace := (trace w
                  ++ [ConsoleRule ("[red]Request failed with status code "
                                     ++ str_of_Z (status_code resp) ++ "[/red]")])
                  ++ [ConsolePrint (error_message_of (report_of resp kw))] |},
     Ok {| resp_body := error_message_of (report_of resp kw);
           resp_status := if negb (status_code resp =? 401)%Z
                          then status_code resp else 400%Z |}).
Proof. reflexivity. Qed.

Lemma outbound_calls_app (t1 t2 : list event) :
  outbound_calls (t1 ++ t2) = outbound_calls t1 + outbound_calls t2.
Proof.
  unfold outbound_calls. now rewrite filter_app, length_app.
Qed.

End Orchestrator.

(** C8.  No outbound call precedes a successful translation, and there is one
    call per request: translating adds no event; when it fails [forward] ends
    with that failure and no event; when it succeeds the events [forward]
    adds hold exactly one outbound call, the one for the translated request. *)
Theorem one_outbound_call (E : env) (req : Request) (w : world) :
  match adapt (settings E) req w with
  | (w1, Raise e) =>
      trace w1 = trace w /\ forward E req w = (w1, Raise e)
  | (w1, Ok kw) =>
      trace w1 = trace w
      /\ exists w' r new,
           forward E req w = (w', r)
           /\ trace w' = (trace w ++ new)%list
           /\ outbound_calls new = 1
           /\ In (HttpRequest kw) new
  end.
Proof.
  pose proof (adapt_trace req (settings E) w) as Htrace.
  destruct (adapt (settings E) req w) as [w1 [kw|e]] eqn:Hadapt;
    cbn [fst] in Htrace; split; trivial.
  - rewrite (forward_adapt_ok E req w w1 kw Hadapt). cbn zeta.
    rewrite Htrace.
    destruct (upstream E kw) as [resp|e].
    + destruct (negb (status_code resp =? 200)%Z).
      * rewrite handle_azure_error_unfold. cbn [trace inbound_model].
        eexists _, _, _. split; [reflexivity|].
        cbn [trace]. rewrite <- !app_assoc.
        split; [reflexivity|]. split; [reflexivity|]. cbn. auto.
      * eexists _, _, _. split; [reflexivity|].
        cbn [trace]. rewrite <- !app_assoc.
        split; [reflexivity|]. split; [reflexivity|]. cbn. auto.
    + eexists _, _, _. split; [reflexivity|].
      cbn [trace]. rewrite <- !app_assoc.
      split; [reflexivity|]. split; [reflexivity|]. cbn. auto.
  - now apply forward_adapt_raise.
Qed.

(** C9, amended.  [forward] has no handler around the outbound call: when the
    call cannot be completed, the exception it raises leaves [forward]
    unchanged, after the payload was recorded and the call issued, and no
    diagnostic is printed or returned. *)
Theorem transport_failure_propagates (E : env) (req : Request) (w w1 : world)
  (kw : request_kwargs) (e : exn) :
  adapt (settings E) req w = (w1, Ok kw) ->
  upstream E kw = Raise e ->
  exists w',
    forward E req w = (w', Raise e)
    /\ trace w' = (trace w ++ [RecordPayload (kw_json kw) "upstream_request";
                               HttpRequest kw])%list.
Proof.
  intros Hadapt Hup.
  rewrite (forward_adapt_ok E req w w1 kw Hadapt), Hup. cbn zeta.
  eexists. split; [reflexivity|]. cbn [trace].
  pose proof (adapt_trace req (settings E) w) as Htrace.
  rewrite Hadapt in Htrace. cbn [fst] in Htrace.
  rewrite Htrace, <- app_assoc. reflexivity.
Qed.

Lemma transport_failure_propagates_witness :
  exists w',
    forward env_unreachable (chat_request "gpt-low" PNone) world0
    = (w', Raise (RequestException "ConnectionError")).
Proof.
  edestruct (transport_failure_propagates env_unreachable
               (chat_request "gpt-low" PNone) world0) as [w' [H _]];
    [vm_compute; reflexivity | reflexivity | ].
  exists w'. exact H.
Defined.

(** C9 as stated fails: with an unreachable vendor [forward] ends with the
    transport exception, not with a response. *)
Lemma transport_failure_not_caught :
  snd (forward env_unreachable (chat_request "gpt-low" PNone) world0)
  = Raise (RequestException "ConnectionError")
  /\ is_ok (snd (forward env_unreachable (chat_request "gpt-low" PNone) world0))
     = false.
Proof. split; vm_compute; reflexivity. Qed.

(** ** The mask of the cache key *)

Section KeyMask.

Import Re.

Lemma run_any3 {T : Type} (a b c : ascii) (rest : string)
  (caps : list string) (k : cont T) :
  not_lf a = true -> not_lf b = true -> not_lf c = true ->
  run any3 (String a (String b (String c rest))) caps k
  = k (String a (String b (String c ""))) rest caps.
Proof.
  intros Ha Hb Hc. cbn. now rewrite Ha, Hb, Hc.
Qed.

Lemma run_any3_short {T : Type} (s : string) (caps : list string)
  (k : cont T) :
  String.length s < 3 -> run any3 s caps k = None.
Proof.
  destruct s as [|x [|y [|z s]]]; cbn; intros Hlen;
    repeat match goal with
           | |- context [not_lf ?c] => destruct (not_lf c)
           end; try reflexivity; lia.
Qed.

(** The greedy run takes everything, then gives characters back one at a
    time until the continuation accepts: when the continuation needs three
    characters, the run stops three characters before the end. *)
Lemma star_greedy_gives_back {T : Type} (k : cont T) (x y z : ascii)
  (caps : list string) :
  not_lf x = true -> not_lf y = true -> not_lf z = true ->
  (forall acc rest, String.length rest < 3 -> k acc rest caps = None) ->
  (forall acc, k acc (String x (String y (String z ""))) caps <> None) ->
  forall mid acc,
    no_lf mid = true ->
    star true (mid ++ String x (String y (String z ""))) acc caps k
    = k (acc ++ mid) (String x (String y (String z ""))) caps.
Proof.
  intros Hx Hy Hz Hshort Hlast mid.
  induction mid as [|c mid IH]; intros acc Hmid.
  - cbn. rewrite Hx, Hy, Hz.
    rewrite !Hshort by (cbn; lia).
    replace (acc ++ "") with acc; [reflexivity|].
    clear. induction acc; cbn; congruence.
  - cbn in Hmid. apply andb_prop in Hmid as [Hc Hmid].
    cbn [append star]. rewrite Hc, (IH _ Hmid).
    replace ((acc ++ String c "") ++ mid) with (acc ++ String c mid)
      by (clear; induction acc; cbn; congruence).
    destruct (k (acc ++ String c mid) _ caps) eqn:Hk; [reflexivity|].
    now apply Hlast in Hk.
Qed.

(** the pattern matches a line of six characters or more as a whole *)
Lemma key_pattern_match (a b c x y z : ascii) (mid : string) :
  not_lf a = true -> not_lf b = true -> not_lf c = true ->
  not_lf x = true -> not_lf y = true -> not_lf z = true ->
  no_lf mid = true ->
  match_at key_pattern
    (String a (String b (String c (mid ++ String x (String y (String z ""))))))
  = Some (String a (String b (String c (mid ++ String x (String y (String z ""))))),
          [String a (String b (String c ""));
           mid;
           String x (String y (String z ""))]).
Proof.
  intros Ha Hb Hc Hx Hy Hz Hmid.
  unfold match_at, key_pattern. cbn [run].
  rewrite run_any3 by assumption.
  rewrite (star_greedy_gives_back _ x y z); try assumption.
  - rewrite run_any3 by assumption. reflexivity.
  - intros. now apply run_any3_short.
  - intros acc. rewrite run_any3 by assumption. discriminate.
Qed.

Lemma sub_from_skip_all (r : regex) (tpl : list piece) (s : string) (n : nat) :
  String.length s <= n -> sub_from r tpl n s = "".
Proof.
  revert n. induction s as [|c s IH]; intros n Hlen; [reflexivity|].
  cbn in Hlen. destruct n as [|n]; [lia|]. cbn. apply IH. lia.
Qed.

Lemma sub_from_match (r : regex) (tpl : list piece) (c : ascii)
  (s m : string) (caps : list string) :
  match_at r (String c s) = Some (m, caps) ->
  sub_from r tpl 0 (String c s)
  = expand tpl caps ++ sub_from r tpl (String.length m - 1) s.
Proof. intros H. cbn [sub_from]. now rewrite H. Qed.

Lemma length_append (s t : string) :
  String.length (s ++ t) = String.length s + String.length t.
Proof. induction s; cbn; congruence. Qed.

(** the mask of a line of six characters or more *)
Lemma mask_long_key (a b c x y z : ascii) (mid : string) :
  not_lf a = true -> not_lf b = true -> not_lf c = true ->
  not_lf x = true -> not_lf y = true -> not_lf z = true ->
  no_lf mid = true ->
  sub key_pattern mask_template
    (String a (String b (String c (mid ++ String x (String y (String z ""))))))
  = String a (String b (String c ("***" ++ String x (String y (String z ""))))).
Proof.
  intros. unfold sub.
  rewrite (sub_from_match _ _ _ _ _ _ (key_pattern_match a b c x y z mid
             ltac:(assumption) ltac:(assumption) ltac:(assumption)
             ltac:(assumption) ltac:(assumption) ltac:(assumption)
             ltac:(assumption))).
  rewrite sub_from_skip_all by (cbn [String.length]; lia).
  reflexivity.
Qed.

(** a string of three characters or more ends in three characters *)
Lemma last_three (t : string) :
  3 <= String.length t -> no_lf t = true ->
  exists mid x y z,
    t = mid ++ String x (String y (String z ""))
    /\ no_lf mid = true
    /\ not_lf x = true /\ not_lf y = true /\ not_lf z = true.
Proof.
  induction t as [|c t IH]; cbn; intros Hlen Hlf; [lia|].
  apply andb_prop in Hlf as [Hc Hlf].
  destruct (le_lt_dec 3 (String.length t)) as [Hge|Hlt].
  - destruct (IH Hge Hlf) as (mid & x & y & z & -> & Hmid & Hx & Hy & Hz).
    exists (String c mid), x, y, z. cbn. rewrite Hc, Hmid. auto.
  - destruct t as [|y [|z [|u t]]]; cbn in *; try lia.
    apply andb_prop in Hlf as [Hy Hlf]. apply andb_prop in Hlf as [Hz _].
    exists "", c, y, z. auto.
Qed.

Lemma str_drop_append (s t : string) :
  str_drop (String.length s) (s ++ t) = t.
Proof. induction s; cbn; [destruct t|]; auto. Qed.

(** A string key of six characters or more on one line keeps its first and
    its last three characters around the mask. *)
Lemma redact_long_key (s : string) :
  6 <= String.length s -> no_lf s = true ->
  redact_prompt_cache_key (PStr s) = str_take 3 s ++ "***" ++ str_last 3 s.
Proof.
  intros Hlen Hlf.
  destruct s as [|a [|b [|c t]]]; cbn in Hlen; try lia.
  cbn in Hlf.
  apply andb_prop in Hlf as [Ha Hlf].
  apply andb_prop in Hlf as [Hb Hlf].
  apply andb_prop in Hlf as [Hc Hlf].
  destruct (last_three t) as (mid & x & y & z & -> & Hmid & Hx & Hy & Hz);
    [lia | assumption |].
  unfold redact_prompt_cache_key, py_or. cbn [truthy is_empty negb py_str].
  rewrite mask_long_key by assumption.
  unfold str_last. cbn [String.length str_take append].
  rewrite length_append. cbn [String.length].
  replace (S (S (S (String.length mid + 3))) - 3)
    with (S (S (S (String.length mid)))) by lia.
  cbn [str_drop]. rewrite str_drop_append. reflexivity.
Qed.

End KeyMask.

(** ** The redacted request body *)

Section Redaction.

Lemma dict_get_set_same (d : pydict) (k : string) (v : pyval) :
  dict_get (dict_set d k v) k = v.
Proof.
  unfold dict_get. induction d as [|[k' v'] d IH]; cbn.
  - now rewrite String.eqb_refl.
  - destruct (String.eqb k' k) eqn:Hk; cbn; now rewrite Hk.
Qed.

Lemma dict_get_set_other (d : pydict) (k k' : string) (v : pyval) :
  k <> k' -> dict_get (dict_set d k v) k' = dict_get d k'.
Proof.
  intros Hne. apply String.eqb_neq in Hne.
  unfold dict_get. induction d as [|[k0 v0] d IH]; cbn.
  - now rewrite Hne.
  - destruct (String.eqb k0 k) eqn:Hk; cbn.
    + apply String.eqb_eq in Hk. subst k0. now rewrite Hne.
    + destruct (String.eqb k0 k'); auto.
Qed.

(** the report shows the cache key as [redact_prompt_cache_key] leaves it *)
Lemma redact_body_key (body : pydict) :
  dict_get (redact_body body) "prompt_cache_key"
  = PStr (redact_prompt_cache_key (dict_get body "prompt_cache_key")).
Proof.
  unfold redact_body. rewrite dict_get_set_same.
  now rewrite !dict_get_set_other by discriminate.
Qed.

(** a key of fewer than six characters matches nowhere and stays as it is *)
Lemma short_key_unmasked (s : string) :
  String.length s < 6 -> Re.sub key_pattern mask_template s = s.
Proof.
  destruct s as [|a [|b [|c [|d [|e [|f s]]]]]];
    cbn [String.length]; intros Hlen; try lia; unfold Re.sub; cbn;
    repeat (match goal with
            | |- context [Re.not_lf ?c] => destruct (Re.not_lf c)
            end; cbn);
    reflexivity.
Qed.

(** so a non-empty key of fewer than six characters reaches the report raw *)
Lemma redact_short_key (s : string) :
  s <> "" -> String.length s < 6 -> redact_prompt_cache_key (PStr s) = s.
Proof.
  intros Hne Hlen. unfold redact_prompt_cache_key, py_or.
  destruct s as [|c s]; [congruence|].
  cbn [truthy is_empty negb py_str]. now apply short_key_unmasked.
Qed.

End Redaction.

(** X21.  In the redacted report, a string cache key of six characters or
    more on one line is reduced to its first three and its last three
    characters around three asterisks; for an absent (or otherwise falsy)
    key the marker is put through the same mask and reads [no ***key]. *)
Theorem cache_key_mask (body : pydict) :
  (forall s,
      dict_get body "prompt_cache_key" = PStr s ->
      6 <= String.length s -> no_lf s = true ->
      dict_get (redact_body body) "prompt_cache_key"
      = PStr (str_take 3 s ++ "***" ++ str_last 3 s))
  /\ (truthy (dict_get body "prompt_cache_key") = false ->
      dict_get (redact_body body) "prompt_cache_key" = PStr "no ***key").
Proof.
  split.
  - intros s Hkey Hlen Hlf.
    rewrite redact_body_key, Hkey. f_equal. now apply redact_long_key.
  - intros Hfalsy. rewrite redact_body_key. f_equal.
    unfold redact_prompt_cache_key, py_or. rewrite Hfalsy.
    vm_compute. reflexivity.
Qed.

Lemma cache_key_mask_witness :
  dict_get (redact_body [("prompt_cache_key", PStr "abcdefgh")])
    "prompt_cache_key" = PStr "abc***fgh"
  /\ dict_get (redact_body [("prompt_cache_key", PNone)])
       "prompt_cache_key" = PStr "no ***key".
Proof.
  split.
  - apply (proj1 (cache_key_mask [("prompt_cache_key", PStr "abcdefgh")])
             "abcdefgh"); [reflexivity | cbn; lia | reflexivity].
  - apply (proj2 (cache_key_mask [("prompt_cache_key", PNone)])).
    reflexivity.
Defined.

(** C4, at the failing input.  The marker of an absent cache key is put
    through the mask meant for keys: for a request without [user] and a
    vendor answering 500, the redacted body holds [no ***key], and the
    response handed to the caller shows that text and nowhere the marker
    [no prompt_cache_key]. *)
Lemma absent_key_marker_is_masked :
  dict_get (redact_body [("prompt_cache_key", PNone)]) "prompt_cache_key"
  = PStr "no ***key"
  /\ contains "no prompt_cache_key"
       (reply_body (forward (env_replying 500)
                      (chat_request "gpt-low" PNone) world0)) = false
  /\ contains "no ***key"
       (reply_body (forward (env_replying 500)
                      (chat_request "gpt-low" PNone) world0)) = true.
Proof. repeat split; vm_compute; reflexivity. Qed.

(** C1, at the failing input.  A cache key of fewer than six characters is
    not masked: for the user identifier [u-417] and a vendor answering 401,
    the response handed to the caller shows the key as it was sent. *)
Theorem short_cache_key_is_visible :
  redact_prompt_cache_key (PStr "u-417") = "u-417"
  /\ contains (json_str "prompt_cache_key" ++ ": " ++ json_str "u-417")
       (reply_body (forward (env_replying 401)
                      (chat_request "gpt-low" (PStr "u-417")) world0)) = true.
Proof. split; vm_compute; reflexivity. Qed.

(** ** The partition of the messages *)

Section Messages.

Lemma tool_call_item_wf (tool_call : pyval) :
  wf_tool_call tool_call = true -> exists item, tool_call_item tool_call = Ok item.
Proof.
  destruct tool_call as [| | | | |d]; cbn [wf_tool_call]; try discriminate.
  intros Hfun. unfold tool_call_item. cbn [attr_get_default attr_get bind].
  destruct (dict_get_default d "function" (PDict [])); try discriminate.
  cbn. eauto.
Qed.

Lemma mapM_forallb {A B : Type} (f : A -> res B) (ok : A -> bool) (l : list A) :
  (forall x, ok x = true -> exists y, f x = Ok y) ->
  forallb ok l = true -> exists ys, mapM f l = Ok ys.
Proof.
  intros Hf. induction l as [|x xs IH]; cbn; intros Hall; [eauto|].
  apply andb_prop in Hall as [Hx Hxs].
  destruct (Hf x Hx) as [y ->]. destruct (IH Hxs) as [ys ->]. cbn. eauto.
Qed.

(** what the membership test of line 77 answers on a hashable role *)
Lemma in_str_set_hashable (m : pyval) (d : pydict) :
  m = PDict d -> hashable (dict_get d "role") = true ->
  in_str_set (dict_get d "role") ["system"; "developer"] = Ok (is_instruction m).
Proof.
  intros -> Hhash. unfold is_instruction.
  destruct (dict_get d "role"); try discriminate; reflexivity.
Qed.

Lemma instruction_texts_cons (m : pyval) (ms : list pyval) :
  instruction_texts (m :: ms)
  = (instruction_texts [m] ++ instruction_texts ms)%list.
Proof.
  unfold instruction_texts. cbn [filter].
  destruct (is_instruction m); reflexivity.
Qed.

(** an acceptable message adds its text to the instructions when its role is
    system or developer, and leaves them alone otherwise *)
Lemma message_step_wf (parts : list string) (items : list pyval) (m : pyval) :
  wf_message m = true ->
  exists items',
    message_step (parts, items) m
    = Ok ((parts ++ instruction_texts [m])%list, items').
Proof.
  destruct m as [| | | | |d]; cbn [wf_message]; try discriminate.
  intros Hwf. apply andb_prop in Hwf as [Hhash Hrest].
  unfold message_step. rewrite !attr_get_dict. cbn [bind].
  rewrite content_to_text_text_of. cbn [bind].
  rewrite (in_str_set_hashable (PDict d) d eq_refl Hhash). cbn [bind].
  unfold instruction_texts. cbn [filter].
  destruct (is_instruction (PDict d)) eqn:Hinstr; cbn [map].
  - eauto.
  - rewrite app_nil_r. cbn [orb] in Hrest.
    destruct (eq_str (dict_get d "role") "tool") eqn:Htool; [cbn; eauto|].
    cbn [orb] in Hrest. unfold wf_tool_calls in Hrest.
    destruct (truthy (dict_get d "tool_calls")); [|eauto].
    destruct (dict_get d "tool_calls") as [| | | |l|]; try discriminate.
    cbn [py_iter bind].
    destruct (mapM_forallb tool_call_item wf_tool_call l tool_call_item_wf Hrest)
      as [calls ->].
    cbn [bind]. eauto.
Qed.

Lemma foldM_message_step_wf (messages : list pyval) :
  forallb wf_message messages = true ->
  forall parts items,
  exists items',
    foldM message_step (parts, items) messages
    = Ok ((parts ++ instruction_texts messages)%list, items').
Proof.
  induction messages as [|m ms IH]; cbn [forallb foldM]; intros Hwf parts items.
  - exists items. now rewrite app_nil_r.
  - apply andb_prop in Hwf as [Hm Hms].
    destruct (message_step_wf parts items m Hm) as [items1 ->]. cbn [bind].
    destruct (IH Hms (parts ++ instruction_texts [m])%list items1)
      as [items2 ->].
    exists items2. now rewrite (instruction_texts_cons m ms), app_assoc.
Qed.

Lemma instruction_texts_nil (messages : list pyval) :
  instruction_texts messages = [] <-> filter is_instruction messages = [].
Proof.
  unfold instruction_texts.
  destruct (filter is_instruction messages); cbn; split; congruence.
Qed.

End Messages.

(** C6, amended.  For a sequence of acceptable messages the translation
    returns, and its [instructions] are the normalized contents of the system
    and developer messages, in their order, joined by a blank line (two line
    breaks); they are absent ([None], never an empty string) exactly when no
    such message exists. *)
Theorem instructions_joined (messages : list pyval) :
  forallb wf_message messages = true ->
  exists body,
    _messages_to_responses_input_and_instructions messages = Ok body
    /\ dict_get body "instructions"
       = match instruction_texts messages with
         | [] => PNone
         | parts => PStr (str_join (nl ++ nl) parts)
         end
    /\ (dict_get body "instructions" = PNone
        <-> filter is_instruction messages = []).
Proof.
  intros Hwf. unfold _messages_to_responses_input_and_instructions.
  destruct (foldM_message_step_wf messages Hwf [] []) as [items ->].
  cbn [bind app]. eexists. split; [reflexivity|].
  cbn [dict_get dict_get_default String.eqb Ascii.eqb Bool.eqb].
  rewrite <- instruction_texts_nil.
  destruct (instruction_texts messages) as [|part parts].
  - repeat split; reflexivity.
  - repeat split; congruence.
Qed.

Lemma instructions_joined_witness :
  exists body,
    _messages_to_responses_input_and_instructions
      [system_message "Be brief."; user_message "hi";
       PDict [("role", PStr "developer"); ("content", PList [PStr "Use"; PStr "tools"])]]
    = Ok body
    /\ dict_get body "instructions"
       = PStr ("Be brief." ++ nl ++ nl ++ "Use" ++ nl ++ "tools").
Proof.
  destruct (instructions_joined
              [system_message "Be brief."; user_message "hi";
               PDict [("role", PStr "developer");
                      ("content", PList [PStr "Use"; PStr "tools"])]]
              eq_refl) as (body & Hbody & Hinstr & _).
  exists body. split; [exact Hbody | exact Hinstr].
Defined.

(** C6 as stated fails: two system messages are joined by two line breaks,
    not by one. *)
Lemma instructions_not_newline_joined :
  _messages_to_responses_input_and_instructions
    [system_message "a"; system_message "b"]
  = Ok [("instructions", PStr ("a" ++ nl ++ nl ++ "b")); ("input", PNone)]
  /\ PStr ("a" ++ nl ++ nl ++ "b")
     <> PStr (str_join nl
                (instruction_texts [system_message "a"; system_message "b"])).
Proof. split; [vm_compute; reflexivity | vm_compute; discriminate]. Qed.

(** ** The request translator *)

(** take the next step of a chain of binds and tests, on both sides *)
Ltac step_translation :=
  match goal with
  | |- context [bind ?m _] => destruct m eqn:?; cbn [bind]
  | |- context [if negb ?b then _ else _] => destruct b eqn:?; cbn [negb]
  end.

(** C5, amended.  The configured verbosity is never validated: when the
    translation fails, it fails the same way under every other verbosity;
    when it succeeds, [low] and [high] are forwarded as [text.verbosity] and
    any other value, [medium] included, leaves the outbound body without a
    [text] field. *)
Theorem verbosity_not_validated (cfg : Settings) (req : Request) (w : world)
  (v : string) :
  match snd (adapt (with_verbosity cfg v) req w) with
  | Ok kw =>
      dict_mem (kw_json kw) "text" = in_set v ["low"; "high"]
      /\ dict_get (kw_json kw) "text"
         = (if in_set v ["low"; "high"]
            then PDict [("verbosity", PStr v)] else PNone)
  | Raise e =>
      forall v', snd (adapt (with_verbosity cfg v') req w) = Raise e
  end.
Proof.
  rewrite adapt_unfold. cbn [snd].
  assert (Hsame : forall v',
             snd (adapt (with_verbosity cfg v') req w)
             = build_kwargs (with_verbosity cfg v') req (req_json req)
                 match req_json req with
                 | PDict d => dict_get d "model"
                 | _ => PNone
                 end) by (intros; now rewrite adapt_unfold).
  destruct (build_kwargs (with_verbosity cfg v) _ _ _) as [kw|e] eqn:Hbuild.
  - clear Hsame. unfold build_kwargs in Hbuild.
    unfold _messages_to_responses_input_and_instructions in Hbuild.
    cbn [with_verbosity AZURE_API_KEY AZURE_DEPLOYMENT AZURE_SUMMARY_LEVEL
         AZURE_VERBOSITY_LEVEL AZURE_TRUNCATION AZURE_RESPONSES_API_URL]
      in Hbuild.
    remember (in_set v ["low"; "high"]) as forwarded.
    remember (String.eqb (AZURE_TRUNCATION cfg) "auto") as truncated.
    revert Hbuild.
    step_translation; [|discriminate].
    destruct (py_or a (PList [])) as [| | | |l|];
      try destruct (foldM message_step ([], []) l) as [[parts items]|];
      cbn [bind]; try discriminate;
      repeat (step_translation; try discriminate);
      intros [= <-]; cbn [kw_json];
      destruct forwarded, truncated; split; reflexivity.
  - intros v'. rewrite Hsame. revert Hbuild. unfold build_kwargs.
    cbn [with_verbosity AZURE_API_KEY AZURE_DEPLOYMENT AZURE_SUMMARY_LEVEL
         AZURE_VERBOSITY_LEVEL AZURE_TRUNCATION AZURE_RESPONSES_API_URL].
    repeat (step_translation; try discriminate); auto.
Qed.

(** C5 as stated fails: a verbosity outside the enumeration does not make
    the translation fail; it is dropped like [medium]. *)
Lemma unknown_verbosity_accepted :
  is_ok (snd (adapt (with_verbosity sample_settings "loud")
                (chat_request "gpt-low" PNone) world0)) = true
  /\ is_ok (snd (adapt (with_verbosity sample_settings "medium")
                   (chat_request "gpt-low" PNone) world0)) = true.
Proof. split; vm_compute; reflexivity. Qed.

(** the two model names the specification gives as examples *)
Lemma effort_examples :
  effort_of (snd (adapt sample_settings (chat_request "gpt-Medium" PNone) world0))
  = Ok (PStr "medium")
  /\ snd (adapt sample_settings (chat_request "gpt-extreme" PNone) world0)
     = Raise (CursorConfigurationError (model_error_message (PStr "gpt-extreme")))
  /\ contains "gpt-extreme" (model_error_message (PStr "gpt-extreme")) = true.
Proof. repeat split; vm_compute; reflexivity. Qed.

(** C2, at the failing input.  [replace] removes [gpt-] wherever it stands,
    not only as a prefix: the model name [gpt-gpt-low], whose remainder after
    the prefix is [gpt-low] and no effort, is accepted with effort [low], and
    so is [logpt-w], which has no such prefix at all. *)
Theorem model_prefix_removed_everywhere :
  spec_effort "gpt-gpt-low" = None
  /\ effort_of (snd (adapt sample_settings
                       (chat_request "gpt-gpt-low" PNone) world0))
     = Ok (PStr "low")
  /\ spec_effort "logpt-w" = None
  /\ effort_of (snd (adapt sample_settings
                       (chat_request "logpt-w" PNone) world0))
     = Ok (PStr "low").
Proof. repeat split; vm_compute; reflexivity. Qed.

(** ** Failures of the translator *)

Section Failures.

Lemma bind_raises_only_unhandled {A B : Type} (m : res A) (k : A -> res B) :
  raises_only_unhandled m ->
  (forall a, raises_only_unhandled (k a)) ->
  raises_only_unhandled (bind m k).
Proof. destruct m; cbn; auto. Qed.

Lemma bind_fails_later {A B : Type} (m : res A) (k : A -> res B) :
  raises_only_unhandled m ->
  (forall a, fails_unhandled (k a)) ->
  fails_unhandled (bind m k).
Proof. destruct m; cbn; auto. Qed.

Lemma bind_fails_now {A B : Type} (m : res A) (k : A -> res B) :
  fails_unhandled m -> fails_unhandled (bind m k).
Proof. destruct m; cbn; [intros [] | auto]. Qed.

Lemma attr_get_default_unhandled (v : pyval) (k : string) (dflt : pyval) :
  raises_only_unhandled (attr_get_default v k dflt).
Proof. destruct v; cbn; auto. Qed.

Lemma attr_get_unhandled (v : pyval) (k : string) :
  raises_only_unhandled (attr_get v k).
Proof. apply attr_get_default_unhandled. Qed.

Lemma in_str_set_unhandled (v : pyval) (set : list string) :
  raises_only_unhandled (in_str_set v set).
Proof. destruct v; cbn; auto. Qed.

Lemma py_iter_unhandled (v : pyval) : raises_only_unhandled (py_iter v).
Proof. destruct v; cbn; auto. Qed.

Lemma mapM_unhandled {A B : Type} (f : A -> res B) (l : list A) :
  (forall x, raises_only_unhandled (f x)) ->
  raises_only_unhandled (mapM f l).
Proof.
  intros Hf. induction l as [|x xs IH]; cbn [mapM]; [exact I|].
  apply bind_raises_only_unhandled; [apply Hf|]. intros y.
  apply bind_raises_only_unhandled; [apply IH|]. intros ys. exact I.
Qed.

Lemma foldM_unhandled {A B : Type} (f : A -> B -> res A) (l : list B) :
  (forall a x, raises_only_unhandled (f a x)) ->
  forall a, raises_only_unhandled (foldM f a l).
Proof.
  intros Hf. induction l as [|x xs IH]; intros a; cbn [foldM]; [exact I|].
  apply bind_raises_only_unhandled; [apply Hf | apply IH].
Qed.

Lemma content_to_text_unhandled (content : pyval) :
  raises_only_unhandled (_content_to_text content).
Proof. now rewrite content_to_text_text_of. Qed.

Create HintDb unhandled.

#[local] Hint Resolve attr_get_default_unhandled attr_get_unhandled
  in_str_set_unhandled py_iter_unhandled content_to_text_unhandled
  : unhandled.

(** solve a goal on a chain of binds whose steps raise unhandled exceptions
    only *)
Ltac chain_unhandled :=
  repeat first
    [ exact I
    | progress auto with unhandled
    | apply bind_raises_only_unhandled; [|intro]
    | match goal with
      | |- raises_only_unhandled (if ?b then _ else _) => destruct b
      | |- raises_only_unhandled (let (_, _) := ?p in _) => destruct p
      end ].

Lemma tool_call_item_unhandled (tool_call : pyval) :
  raises_only_unhandled (tool_call_item tool_call).
Proof. unfold tool_call_item. chain_unhandled. Qed.

Lemma transform_tool_unhandled (tool : pyval) :
  raises_only_unhandled (transform_tool tool).
Proof. unfold transform_tool. chain_unhandled. Qed.

Lemma message_step_unhandled (acc : list string * list pyval) (m : pyval) :
  raises_only_unhandled (message_step acc m).
Proof.
  unfold message_step. destruct acc as [parts items]. chain_unhandled.
  apply mapM_unhandled, tool_call_item_unhandled.
Qed.

Lemma messages_unhandled (messages : list pyval) :
  raises_only_unhandled
    (_messages_to_responses_input_and_instructions messages).
Proof.
  unfold _messages_to_responses_input_and_instructions.
  apply bind_raises_only_unhandled.
  - apply foldM_unhandled, message_step_unhandled.
  - intros [parts items]. exact I.
Qed.

Lemma transform_tools_unhandled (tools : pyval) :
  raises_only_unhandled (_transform_tools_for_responses tools).
Proof.
  destruct tools; cbn [_transform_tools_for_responses]; try exact I.
  apply mapM_unhandled, transform_tool_unhandled.
Qed.

(** without a string model the translation cannot get past line 187 *)
Lemma build_kwargs_without_model (cfg : Settings) (req : Request)
  (payload model : pyval) :
  is_str model = false ->
  fails_unhandled (build_kwargs cfg req payload model).
Proof.
  intros Hmodel. unfold build_kwargs.
  apply bind_fails_later; [apply attr_get_unhandled | intros raw_messages].
  apply bind_fails_later.
  { destruct (py_or raw_messages (PList [])); try exact I.
    apply messages_unhandled. }
  intros body.
  apply bind_fails_later; [apply attr_get_default_unhandled | intros raw_tools].
  apply bind_fails_later; [apply transform_tools_unhandled | intros tools].
  apply bind_fails_later; [apply attr_get_unhandled | intros tool_choice].
  apply bind_fails_later; [apply attr_get_unhandled | intros user].
  apply bind_fails_now.
  destruct model; try discriminate; reflexivity.
Qed.

End Failures.

(** C10 as stated fails: a body without a model whose message has a list for
    a role ends with a [TypeError], raised by the membership test on the role
    before the model is looked at. *)
Lemma missing_model_type_error :
  lacks_model (PDict [("messages", PList [PDict [("role", PList [])]])]) = true
  /\ snd (adapt sample_settings
            {| req_headers := [];
               req_json :=
                 PDict [("messages", PList [PDict [("role", PList [])]])] |}
            world0)
     = Raise (TypeError "unhashable type: 'list'").
Proof. split; vm_compute; reflexivity. Qed.

(** the plain case of a missing model: the string method is called on [None] *)
Lemma missing_model_attribute_error :
  snd (adapt sample_settings
         {| req_headers := [];
            req_json := PDict [("messages", PList [user_message "hi"])] |}
         world0)
  = Raise (AttributeError "NoneType" "replace").
Proof. vm_compute. reflexivity. Qed.

(** ** What the translator does with the model name *)

Section ModelName.

Lemma prefix_refl (s : string) : prefix s s = true.
Proof.
  induction s as [|c s IH]; cbn; [reflexivity|].
  destruct (ascii_dec c c); congruence.
Qed.

Lemma contains_refl (s : string) : contains s s = true.
Proof. destruct s; [reflexivity|]. cbn [contains]. now rewrite prefix_refl. Qed.

Lemma contains_append_r (p s t : string) :
  contains s t = true -> contains s (p ++ t) = true.
Proof.
  intros H. induction p as [|c p IH]; cbn [append]; [exact H|].
  cbn [contains]. rewrite IH. apply orb_true_r.
Qed.

(** the message of the configuration error names the model it was given *)
Lemma model_error_names_model (s : string) :
  contains s (model_error_message (PStr s)) = true.
Proof.
  unfold model_error_message. cbn [py_str].
  repeat apply contains_append_r. apply contains_refl.
Qed.

(** an exception raised before the model is read is an unhandled one *)
Ltac unhandled_case :=
  match goal with
  | H : ?m = Raise ?e |- _ =>
      let P := fresh in
      assert (P : raises_only_unhandled m)
        by first [ apply transform_tools_unhandled
                 | apply foldM_unhandled; intros;
                   apply message_step_unhandled ];
      rewrite H in P; cbn [raises_only_unhandled] in P;
      destruct e; try discriminate P; reflexivity
  end.

(** The outcomes of [adapt] on a body with a string model: with every
    [gpt-] removed and the rest lowercased, the name decides between an
    effort and the configuration error that quotes the name. *)
Lemma adapt_effort_cases (cfg : Settings) (req : Request) (w : world)
  (d : pydict) (s : string) :
  req_json req = PDict d -> dict_get d "model" = PStr s ->
  match snd (adapt cfg req w) with
  | Ok kw =>
      in_set (str_lower (str_replace s "gpt-" "")) efforts = true
      /\ effort_of (Ok kw) = Ok (PStr (str_lower (str_replace s "gpt-" "")))
  | Raise (CursorConfigurationError msg) =>
      in_set (str_lower (str_replace s "gpt-" "")) efforts = false
      /\ msg = model_error_message (PStr s)
  | Raise (ServiceConfigurationError _) =>
      in_set (str_lower (str_replace s "gpt-" "")) efforts = true
  | Raise e => unhandled e = true
  end.
Proof.
  intros Hbody Hmodel. rewrite adapt_unfold, Hbody, Hmodel. cbn [snd].
  unfold build_kwargs, _messages_to_responses_input_and_instructions.
  cbn [reasoning_effort_of attr_get attr_get_default bind].
  remember (in_set (AZURE_VERBOSITY_LEVEL cfg) ["low"; "high"]) as forwarded.
  remember (String.eqb (AZURE_TRUNCATION cfg) "auto") as truncated.
  remember (str_lower (str_replace s "gpt-" "")) as effort.
  destruct (py_or _ (PList [])) as [| | | |l|];
    try (destruct (foldM message_step ([], []) l) as [[parts items]|] eqn:?;
         [|cbn [bind]; unhandled_case]);
    cbn [bind];
    (destruct (_transform_tools_for_responses _) eqn:?;
     [|cbn [bind]; unhandled_case]);
    cbn [bind];
    (destruct (in_set effort efforts) eqn:?; cbn [negb]; [|now split]);
    (destruct (in_set (AZURE_SUMMARY_LEVEL cfg) _) eqn:?; cbn [negb];
     [|reflexivity]);
    (split; [reflexivity|]);
    destruct forwarded, truncated; reflexivity.
Qed.

End ModelName.

(** ** The acceptable messages are those the loop does not raise on *)

Section Acceptable.

Lemma tool_call_item_ok (tool_call : pyval) :
  is_ok (tool_call_item tool_call) = wf_tool_call tool_call.
Proof.
  destruct tool_call as [| | | | |d]; try reflexivity.
  unfold tool_call_item. cbn [attr_get_default attr_get bind wf_tool_call].
  destruct (dict_get_default d "function" (PDict [])); reflexivity.
Qed.

Lemma mapM_ok {A B : Type} (f : A -> res B) (ok : A -> bool) (l : list A) :
  (forall x, is_ok (f x) = ok x) ->
  is_ok (mapM f l) = forallb ok l.
Proof.
  intros Hok. induction l as [|x xs IH]; cbn [mapM forallb]; [reflexivity|].
  rewrite <- Hok, <- IH.
  destruct (f x); cbn [bind is_ok andb]; [|reflexivity].
  destruct (mapM f xs); reflexivity.
Qed.

Lemma tool_calls_ok (v : pyval) :
  truthy v = true ->
  is_ok (calls <- py_iter v ;; mapM tool_call_item calls)
  = wf_tool_calls v.
Proof.
  unfold wf_tool_calls. intros Htruthy. rewrite Htruthy.
  destruct v as [| | |s|l|d]; try reflexivity.
  - destruct s; [discriminate | reflexivity].
  - cbn [py_iter bind]. apply mapM_ok, tool_call_item_ok.
  - destruct d as [|[k v] d]; [discriminate | reflexivity].
Qed.

(** [message_step] returns on the acceptable messages and on no other *)
Lemma message_step_ok (acc : list string * list pyval) (m : pyval) :
  is_ok (message_step acc m) = wf_message m.
Proof.
  destruct acc as [parts items].
  destruct m as [| | | | |d]; try reflexivity.
  destruct (wf_message (PDict d)) eqn:Hwf.
  - destruct (message_step_wf parts items _ Hwf) as [items' ->]. reflexivity.
  - cbn [wf_message] in Hwf. unfold message_step.
    rewrite !attr_get_dict. cbn [bind].
    rewrite content_to_text_text_of. cbn [bind].
    destruct (hashable (dict_get d "role")) eqn:Hhash.
    + rewrite (in_str_set_hashable (PDict d) d eq_refl Hhash). cbn [bind].
      cbn [andb] in Hwf. apply orb_false_elim in Hwf as [Hwf Hcalls].
      apply orb_false_elim in Hwf as [-> ->].
      destruct (truthy (dict_get d "tool_calls")) eqn:Htruthy.
      * pose proof (tool_calls_ok _ Htruthy) as Hok. rewrite Hcalls in Hok.
        destruct (py_iter (dict_get d "tool_calls")) as [calls|];
          cbn [bind] in *; [|reflexivity].
        destruct (mapM tool_call_item calls); [discriminate | reflexivity].
      * unfold wf_tool_calls in Hcalls. now rewrite Htruthy in Hcalls.
    + destruct (dict_get d "role"); try discriminate; reflexivity.
Qed.

End Acceptable.

(** ** The headers sent to the vendor *)

Section Headers.

Context {A : Type}.
Implicit Types (d : list (string * A)) (k : string) (v : A).

Lemma dict_mem_in d k : dict_mem d k = true <-> In k (map fst d).
Proof.
  induction d as [|[k' v'] d IH]; cbn; [split; [discriminate | tauto]|].
  rewrite orb_true_iff, IH, String.eqb_eq. tauto.
Qed.

Lemma dict_mem_set d k k' v :
  dict_mem (dict_set d k v) k' = String.eqb k k' || dict_mem d k'.
Proof.
  induction d as [|[k0 v0] d IH]; cbn.
  - now rewrite orb_false_r.
  - destruct (String.eqb k0 k) eqn:Hk; cbn.
    + apply String.eqb_eq in Hk. subst k0.
      destruct (String.eqb k k'); reflexivity.
    + rewrite IH. destruct (String.eqb k0 k'), (String.eqb k k'); reflexivity.
Qed.

Lemma distinct_keys_set d k v :
  distinct_keys d -> distinct_keys (dict_set d k v).
Proof.
  unfold distinct_keys.
  induction d as [|[k0 v0] d IH]; cbn; intros Hd.
  - constructor; [tauto | constructor].
  - inversion Hd as [|? ? Hnotin Hrest]; subst.
    destruct (String.eqb k0 k) eqn:Hk; cbn; [now constructor|].
    constructor; [|auto].
    rewrite <- dict_mem_in, dict_mem_set, orb_true_iff, dict_mem_in.
    apply String.eqb_neq in Hk. rewrite String.eqb_eq. intros [->|]; tauto.
Qed.

Lemma distinct_keys_of_items (items : list (string * A)) :
  distinct_keys (dict_of_items items).
Proof.
  unfold dict_of_items.
  assert (H : forall acc, distinct_keys acc ->
            distinct_keys
              (fold_left (fun d kv => dict_set d (fst kv) (snd kv)) items acc)).
  { induction items as [|[k v] items IH]; cbn; intros acc Hacc; [exact Hacc|].
    apply IH. now apply distinct_keys_set. }
  apply H. constructor.
Qed.

Lemma dict_mem_pop_other d k k' :
  k <> k' -> dict_mem (dict_pop d k) k' = dict_mem d k'.
Proof.
  intros Hne. induction d as [|[k0 v0] d IH]; cbn; [reflexivity|].
  destruct (String.eqb k0 k) eqn:Hk; cbn.
  - apply String.eqb_eq in Hk. subst k0.
    apply String.eqb_neq in Hne. now rewrite Hne.
  - now rewrite IH.
Qed.

Lemma dict_mem_pop_same d k :
  distinct_keys d -> dict_mem (dict_pop d k) k = false.
Proof.
  unfold distinct_keys.
  induction d as [|[k0 v0] d IH]; cbn; intros Hd; [reflexivity|].
  inversion Hd as [|? ? Hnotin Hrest]; subst.
  destruct (String.eqb k0 k) eqn:Hk; cbn.
  - apply String.eqb_eq in Hk. subst k0.
    destruct (dict_mem d k) eqn:Hmem; [|reflexivity].
    apply dict_mem_in in Hmem. contradiction.
  - rewrite Hk. cbn. auto.
Qed.

Lemma distinct_keys_pop d k : distinct_keys d -> distinct_keys (dict_pop d k).
Proof.
  unfold distinct_keys.
  induction d as [|[k0 v0] d IH]; cbn; intros Hd; [constructor|].
  inversion Hd as [|? ? Hnotin Hrest]; subst.
  destruct (String.eqb k0 k) eqn:Hk; cbn; [assumption|].
  constructor; [|auto].
  rewrite <- dict_mem_in in *. intros Hmem. apply Hnotin.
  destruct (String.eqb_spec k k0) as [->|Hne].
  - now rewrite String.eqb_refl in Hk.
  - now rewrite dict_mem_pop_other in Hmem.
Qed.

Lemma assoc_get_set_same d k v : assoc_get (dict_set d k v) k = Some v.
Proof.
  induction d as [|[k0 v0] d IH]; cbn.
  - now rewrite String.eqb_refl.
  - destruct (String.eqb k0 k) eqn:Hk; cbn; now rewrite Hk.
Qed.

Lemma assoc_get_set_other d k k' v :
  k <> k' -> assoc_get (dict_set d k v) k' = assoc_get d k'.
Proof.
  intros Hne. apply String.eqb_neq in Hne.
  induction d as [|[k0 v0] d IH]; cbn.
  - now rewrite Hne.
  - destruct (String.eqb k0 k) eqn:Hk; cbn.
    + apply String.eqb_eq in Hk. subst k0. now rewrite Hne.
    + now rewrite IH.
Qed.

Lemma assoc_get_pop_other d k k' :
  k <> k' -> assoc_get (dict_pop d k) k' = assoc_get d k'.
Proof.
  intros Hne. induction d as [|[k0 v0] d IH]; cbn; [reflexivity|].
  destruct (String.eqb k0 k) eqn:Hk; cbn.
  - apply String.eqb_eq in Hk. subst k0.
    apply String.eqb_neq in Hne. now rewrite Hne.
  - now rewrite IH.
Qed.

Lemma assoc_get_app (d1 d2 : list (string * A)) k :
  assoc_get (d1 ++ d2) k
  = match assoc_get d1 k with
    | Some v => Some v
    | None => assoc_get d2 k
    end.
Proof.
  induction d1 as [|[k0 v0] d1 IH]; cbn; [reflexivity|].
  destruct (String.eqb k0 k); auto.
Qed.

(** a dictionary built from items holds, for each key, the last value the
    items give it *)
Lemma assoc_get_of_items (items : list (string * A)) k :
  assoc_get (dict_of_items items) k = assoc_last items k.
Proof.
  unfold dict_of_items, assoc_last.
  assert (H : forall acc,
            assoc_get
              (fold_left (fun d kv => dict_set d (fst kv) (snd kv)) items acc) k
            = match assoc_get (rev items) k with
              | Some v => Some v
              | None => assoc_get acc k
              end).
  { induction items as [|[k0 v0] items IH]; cbn [fold_left rev fst snd];
      intros acc; [reflexivity|].
    rewrite IH, assoc_get_app. cbn [assoc_get].
    destruct (assoc_get (rev items) k); [reflexivity|].
    destruct (String.eqb_spec k0 k) as [->|Hne].
    - apply assoc_get_set_same.
    - now apply assoc_get_set_other. }
  rewrite H. now destruct (assoc_get (rev items) k).
Qed.

End Headers.

(** X1.  The names of the headers are compared as they are spelled.  The
    headers sent to the vendor never hold a header spelled [Host] or
    [Authorization]; they hold the configured key under the name [api-key];
    a header under any other name keeps the last value the request gave it.
    The last covers the other spellings of these names: a caller's
    [Api-Key], as a server spells the header, is sent on beside the
    configured [api-key], and so are [host] and [authorization]. *)
Theorem upstream_headers (src : Request) (api_key : string) :
  let headers := _copy_request_headers_for_azure src api_key in
  dict_mem headers "Host" = false
  /\ dict_mem headers "Authorization" = false
  /\ assoc_get headers "api-key" = Some api_key
  /\ (forall k, k <> "Host" -> k <> "Authorization" -> k <> "api-key" ->
        assoc_get headers k = assoc_last (req_headers src) k)
  /\ assoc_get headers "Api-Key" = assoc_last (req_headers src) "Api-Key"
  /\ assoc_get headers "host" = assoc_last (req_headers src) "host"
  /\ assoc_get headers "authorization"
     = assoc_last (req_headers src) "authorization".
Proof.
  cbv zeta. unfold _copy_request_headers_for_azure.
  pose proof (distinct_keys_of_items (req_headers src)) as Hd.
  assert (Hother : forall k,
             k <> "Host" -> k <> "Authorization" -> k <> "api-key" ->
             assoc_get
               (dict_set
                  (dict_pop (dict_pop (dict_of_items (req_headers src)) "Host")
                     "Authorization") "api-key" api_key) k
             = assoc_last (req_headers src) k).
  { intros k Hhost Hauth Hkey.
    rewrite assoc_get_set_other by congruence.
    rewrite !assoc_get_pop_other by congruence.
    apply assoc_get_of_items. }
  repeat split.
  - rewrite dict_mem_set. cbn [String.eqb Ascii.eqb Bool.eqb orb andb].
    rewrite dict_mem_pop_other by discriminate.
    now apply dict_mem_pop_same.
  - rewrite dict_mem_set. cbn [String.eqb Ascii.eqb Bool.eqb orb andb].
    apply dict_mem_pop_same. now apply distinct_keys_pop.
  - apply assoc_get_set_same.
  - exact Hother.
  - apply Hother; discriminate.
  - apply Hother; discriminate.
  - apply Hother; discriminate.
Qed.

(** ** Contents given as a list of parts *)

Section Parts.

Lemma part_to_text_text_part (s : string) :
  part_to_text (text_part s) = Ok (if nonempty s then Some s else None).
Proof.
  unfold text_part. cbn [part_to_text]. rewrite text_or_content_dict.
  destruct s; reflexivity.
Qed.

Lemma mapM_map {A B C : Type} (f : B -> res C) (g : A -> B) (h : A -> C)
  (l : list A) :
  (forall x, f (g x) = Ok (h x)) -> mapM f (map g l) = Ok (map h l).
Proof.
  intros Hf. induction l as [|x xs IH]; cbn [map mapM]; [reflexivity|].
  now rewrite Hf, IH.
Qed.

Lemma filter_somes_nonempty (l : list string) :
  filter (fun part => negb (is_empty part))
    (somes (map (fun s => if nonempty s then Some s else None) l))
  = filter nonempty l.
Proof.
  induction l as [|s l IH]; cbn [map somes filter]; [reflexivity|].
  destruct (nonempty s) eqn:Hs; cbn [somes filter]; [|assumption].
  unfold nonempty in Hs. rewrite Hs. now f_equal.
Qed.

End Parts.

(** X2.  A content given as a list of text parts, or as a list of plain
    strings, normalizes to its non-empty texts joined by one line break: the
    empty texts are dropped and leave no blank line. *)
Theorem text_parts_joined (texts : list string) :
  _content_to_text (PList (map text_part texts))
  = Ok (str_join nl (filter nonempty texts))
  /\ _content_to_text (PList (map PStr texts))
     = Ok (str_join nl (filter nonempty texts)).
Proof.
  split; cbn [_content_to_text].
  - rewrite (mapM_map part_to_text text_part _ texts part_to_text_text_part).
    cbn [bind]. now rewrite filter_somes_nonempty.
  - rewrite (mapM_map part_to_text PStr Some texts) by reflexivity.
    cbn [bind]. do 2 f_equal.
    induction texts as [|s l IH]; cbn [map somes filter]; [reflexivity|].
    unfold nonempty at 1. destruct (negb (is_empty s)); now rewrite IH.
Qed.

(** ** Which inputs the loops accept *)

Section Accepted.

Lemma transform_tool_ok (tool : pyval) :
  is_ok (transform_tool tool) = wf_tool tool.
Proof.
  destruct tool as [| | | | |d]; try reflexivity.
  unfold transform_tool. cbn [attr_get attr_get_default bind wf_tool].
  fold (dict_get d "function").
  destruct (dict_get d "function"); reflexivity.
Qed.

Lemma transform_tool_flattened (tool item : pyval) :
  transform_tool tool = Ok item -> flattened tool item.
Proof.
  destruct tool as [| | | | |d]; try discriminate.
  unfold transform_tool, flattened.
  cbn [attr_get attr_get_default bind field].
  fold (dict_get d "function").
  destruct (dict_get d "function"); try discriminate.
  cbn [attr_get attr_get_default bind field]. now intros [= <-].
Qed.

Lemma mapM_Forall2 {A B : Type} (f : A -> res B) (R : A -> B -> Prop)
  (l : list A) (out : list B) :
  (forall x y, f x = Ok y -> R x y) ->
  mapM f l = Ok out -> Forall2 R l out.
Proof.
  intros Hf. revert out.
  induction l as [|x xs IH]; cbn [mapM]; intros out.
  - intros [= <-]. constructor.
  - destruct (f x) as [y|] eqn:Hx; [|discriminate]. cbn [bind].
    destruct (mapM f xs) as [ys|]; [|discriminate]. cbn [bind].
    intros [= <-]. constructor; auto.
Qed.

Lemma foldM_message_step_ok (messages : list pyval) :
  forall acc,
    is_ok (foldM message_step acc messages) = forallb wf_message messages.
Proof.
  induction messages as [|m ms IH]; intros acc; cbn [foldM forallb];
    [reflexivity|].
  rewrite <- (message_step_ok acc m).
  destruct (message_step acc m) as [acc'|]; cbn [bind is_ok andb];
    [apply IH | reflexivity].
Qed.

End Accepted.

(** X3.  The tool definitions are flattened one for one and in order: the
    loop returns exactly when every definition is an object whose [function]
    is an object, and then each item is a [function] item with [strict]
    false whose name, description and parameters are those of the
    definition's function ([None] for a missing one); a value that is no
    list gives the empty list and raises nothing. *)
Theorem tools_flattened (tools : pyval) :
  is_ok (_transform_tools_for_responses tools)
  = match tools with
    | PList l => forallb wf_tool l
    | _ => true
    end
  /\ forall out,
       _transform_tools_for_responses tools = Ok out ->
       match tools with
       | PList l => Forall2 flattened l out
       | _ => out = []
       end.
Proof.
  split.
  - destruct tools; try reflexivity.
    cbn [_transform_tools_for_responses].
    apply mapM_ok, transform_tool_ok.
  - intros out. destruct tools; cbn [_transform_tools_for_responses];
      try (now intros [= <-]).
    apply mapM_Forall2, transform_tool_flattened.
Qed.

(** X4.  The partition of the messages returns exactly on the sequences of
    acceptable messages: it raises as soon as a message is not an object, has
    a list or an object for a role, or (being neither an instruction nor a
    tool result) has truthy [tool_calls] that are not a list of objects whose
    [function], when given, is an object. *)
Theorem messages_accepted (messages : list pyval) :
  is_ok (_messages_to_responses_input_and_instructions messages)
  = forallb wf_message messages.
Proof.
  unfold _messages_to_responses_input_and_instructions.
  rewrite <- (foldM_message_step_ok messages ([], [])).
  destruct (foldM message_step ([], []) messages) as [[parts items]|];
    reflexivity.
Qed.

(** ** How the partition of the messages composes *)

Section Composition.

(** the accumulators only grow: a turn of the loop appends what it would
    have produced from empty accumulators *)
Lemma message_step_acc (parts : list string) (items : list pyval) (m : pyval) :
  message_step (parts, items) m
  = match message_step ([], []) m with
    | Ok (parts', items') => Ok ((parts ++ parts')%list, (items ++ items')%list)
    | Raise e => Raise e
    end.
Proof.
  unfold message_step.
  destruct (attr_get m "role") as [role|]; cbn [bind]; [|reflexivity].
  destruct (attr_get m "content") as [raw|]; cbn [bind]; [|reflexivity].
  destruct (_content_to_text raw) as [content|]; cbn [bind]; [|reflexivity].
  destruct (in_str_set role _) as [[|]|]; cbn [bind]; try reflexivity.
  - now rewrite app_nil_r.
  - destruct (eq_str role "tool").
    + destruct (attr_get m "tool_call_id"); cbn [bind]; [|reflexivity].
      now rewrite app_nil_r.
    + destruct (attr_get m "tool_calls") as [tool_calls|]; cbn [bind];
        [|reflexivity].
      destruct (truthy tool_calls); [|now rewrite app_nil_r].
      destruct (py_iter tool_calls) as [calls|]; cbn [bind]; [|reflexivity].
      destruct (mapM tool_call_item calls); cbn [bind]; [|reflexivity].
      now rewrite app_nil_r.
Qed.

Lemma foldM_message_step_acc (messages : list pyval) :
  forall parts items,
    foldM message_step (parts, items) messages
    = match foldM message_step ([], []) messages with
      | Ok (parts', items') =>
          Ok ((parts ++ parts')%list, (items ++ items')%list)
      | Raise e => Raise e
      end.
Proof.
  induction messages as [|m ms IH]; intros parts items; cbn [foldM].
  - now rewrite !app_nil_r.
  - rewrite message_step_acc.
    destruct (message_step ([], []) m) as [[parts1 items1]|]; cbn [bind];
      [|reflexivity].
    rewrite (IH parts1 items1), (IH (parts ++ parts1)%list).
    destruct (foldM message_step ([], []) ms) as [[parts2 items2]|];
      [|reflexivity].
    now rewrite !app_assoc.
Qed.

Lemma foldM_app {A B : Type} (f : A -> B -> res A) (l1 l2 : list B) (a : A) :
  foldM f a (l1 ++ l2) = (a' <- foldM f a l1 ;; foldM f a' l2).
Proof.
  revert a. induction l1 as [|x xs IH]; intros a; cbn [app foldM bind];
    [reflexivity|].
  destruct (f a x); cbn [bind]; auto.
Qed.

Lemma str_append_assoc (s t u : string) : s ++ (t ++ u) = (s ++ t) ++ u.
Proof. induction s; cbn; congruence. Qed.

Lemma str_join_app (sep : string) (l1 l2 : list string) :
  l1 <> [] -> l2 <> [] ->
  str_join sep (l1 ++ l2) = str_join sep l1 ++ sep ++ str_join sep l2.
Proof.
  intros H1 H2. induction l1 as [|x [|y l1] IH]; [congruence| |].
  - destruct l2; [congruence | reflexivity].
  - change (str_join sep ((x :: y :: l1) ++ l2))
      with (x ++ sep ++ str_join sep ((y :: l1) ++ l2)).
    rewrite IH by discriminate.
    change (str_join sep (x :: y :: l1)) with (x ++ sep ++ str_join sep (y :: l1)).
    now rewrite !str_append_assoc.
Qed.

(** the body the partition makes of its two final accumulators *)
Lemma messages_body (messages : list pyval) (body : pydict) :
  _messages_to_responses_input_and_instructions messages = Ok body ->
  exists parts items,
    foldM message_step ([], []) messages = Ok (parts, items)
    /\ input_items body = items
    /\ dict_get body "instructions"
       = match parts with
         | [] => PNone
         | _ => PStr (str_join (nl ++ nl) parts)
         end
    /\ dict_get body "input"
       = match items with [] => PNone | _ => PList items end.
Proof.
  unfold _messages_to_responses_input_and_instructions.
  destruct (foldM message_step ([], []) messages) as [[parts items]|];
    [|discriminate].
  cbn [bind]. intros [= <-]. exists parts, items.
  repeat split; destruct items; reflexivity.
Qed.

(** the instructions of a longer list of parts *)
Lemma instructions_app (p1 p2 : list string) :
  match (p1 ++ p2)%list with
  | [] => PNone
  | _ => PStr (str_join (nl ++ nl) (p1 ++ p2))
  end
  = join_instructions
      match p1 with [] => PNone | _ => PStr (str_join (nl ++ nl) p1) end
      match p2 with [] => PNone | _ => PStr (str_join (nl ++ nl) p2) end.
Proof.
  destruct p1 as [|x1 p1]; [now destruct p2|].
  destruct p2 as [|x2 p2]; [now rewrite app_nil_r|].
  cbn [join_instructions app].
  change (x1 :: (p1 ++ x2 :: p2)%list) with ((x1 :: p1) ++ (x2 :: p2))%list.
  now rewrite str_join_app by discriminate.
Qed.

(** the body of a sequence, from the final accumulators of the loop *)
Lemma body_of_accumulators (messages : list pyval) (parts : list string)
  (items : list pyval) :
  foldM message_step ([], []) messages = Ok (parts, items) ->
  exists body,
    _messages_to_responses_input_and_instructions messages = Ok body
    /\ input_items body = items
    /\ dict_get body "instructions"
       = match parts with
         | [] => PNone
         | _ => PStr (str_join (nl ++ nl) parts)
         end.
Proof.
  intros H. unfold _messages_to_responses_input_and_instructions.
  rewrite H. cbn [bind]. eexists. split; [reflexivity|].
  split; destruct items; reflexivity.
Qed.

(** a message between two sequences adds its parts and items between theirs *)
Lemma partition_insert (before after : list pyval) (m : pyval)
  (p1 pm p2 : list string) (i1 im i2 : list pyval) :
  foldM message_step ([], []) before = Ok (p1, i1) ->
  message_step ([], []) m = Ok (pm, im) ->
  foldM message_step ([], []) after = Ok (p2, i2) ->
  foldM message_step ([], []) (before ++ m :: after)
  = Ok ((p1 ++ pm ++ p2)%list, (i1 ++ im ++ i2)%list).
Proof.
  intros H1 Hm H2. rewrite foldM_app, H1. cbn [bind foldM].
  rewrite message_step_acc, Hm. cbn [bind].
  rewrite foldM_message_step_acc, H2. now rewrite <- !app_assoc.
Qed.

(** a tool result is turned into one item, whatever it holds *)
Lemma tool_message_step (m : pyval) :
  has_role m "tool" = true ->
  message_step ([], []) m = Ok ([], [output_of m]).
Proof.
  destruct m as [| | | | |d]; try discriminate. cbn [has_role].
  intros Hrole. unfold message_step, output_of.
  rewrite !attr_get_dict. cbn [bind field].
  rewrite content_to_text_text_of. cbn [bind].
  destruct (dict_get d "role") as [| | |role| |]; try discriminate.
  cbn [eq_str] in Hrole. apply String.eqb_eq in Hrole. subst role.
  reflexivity.
Qed.

End Composition.

(** X5.  The partition of the messages composes along the conversation: when
    two sequences of messages translate, so does the one after the other;
    its input items are those of the first followed by those of the second,
    and its instructions are theirs, separated by a blank line when both
    have some. *)
Theorem messages_append (ms1 ms2 : list pyval) (b1 b2 : pydict) :
  _messages_to_responses_input_and_instructions ms1 = Ok b1 ->
  _messages_to_responses_input_and_instructions ms2 = Ok b2 ->
  exists b,
    _messages_to_responses_input_and_instructions (ms1 ++ ms2) = Ok b
    /\ input_items b = (input_items b1 ++ input_items b2)%list
    /\ dict_get b "instructions"
       = join_instructions (dict_get b1 "instructions")
                           (dict_get b2 "instructions").
Proof.
  intros H1 H2.
  destruct (messages_body ms1 b1 H1) as (p1 & i1 & F1 & -> & -> & _).
  destruct (messages_body ms2 b2 H2) as (p2 & i2 & F2 & -> & -> & _).
  unfold _messages_to_responses_input_and_instructions.
  rewrite foldM_app, F1. cbn [bind].
  rewrite foldM_message_step_acc, F2. cbn [bind].
  eexists. split; [reflexivity|]. split.
  - unfold input_items. cbn [dict_get dict_get_default String.eqb Ascii.eqb
                              Bool.eqb].
    destruct (i1 ++ i2)%list; reflexivity.
  - cbn [dict_get dict_get_default String.eqb Ascii.eqb Bool.eqb].
    apply instructions_app.
Qed.

Lemma messages_append_witness :
  exists b,
    _messages_to_responses_input_and_instructions
      ([system_message "a"; user_message "hi"]
         ++ [system_message "b"; tool_message "c1" "done"]) = Ok b
    /\ List.length (input_items b) = 2
    /\ dict_get b "instructions" = PStr ("a" ++ nl ++ nl ++ "b").
Proof.
  edestruct (messages_append [system_message "a"; user_message "hi"]
               [system_message "b"; tool_message "c1" "done"])
    as (b & Hb & Hin & Hinstr); [reflexivity | reflexivity |].
  exists b. split; [exact Hb|]. split.
  - rewrite Hin. reflexivity.
  - rewrite Hinstr. reflexivity.
Defined.

(** X6.  A tool result gives exactly one item, at its place in the
    conversation: between the items of the messages before it and those of
    the messages after it stands one [function_call_output] with status
    [completed], the normalized content as output and the message's
    [tool_call_id] as call id ([None] when it has none); the instructions are
    not touched. *)
Theorem tool_result_item (before after : list pyval) (m : pyval)
  (b1 b2 : pydict) :
  has_role m "tool" = true ->
  _messages_to_responses_input_and_instructions before = Ok b1 ->
  _messages_to_responses_input_and_instructions after = Ok b2 ->
  exists b,
    _messages_to_responses_input_and_instructions (before ++ m :: after) = Ok b
    /\ input_items b = (input_items b1 ++ output_of m :: input_items b2)%list
    /\ dict_get b "instructions"
       = join_instructions (dict_get b1 "instructions")
                           (dict_get b2 "instructions").
Proof.
  intros Hrole H1 H2.
  destruct (messages_body before b1 H1) as (p1 & i1 & F1 & -> & -> & _).
  destruct (messages_body after b2 H2) as (p2 & i2 & F2 & -> & -> & _).
  pose proof (partition_insert before after m _ _ _ _ _ _ F1
                (tool_message_step m Hrole) F2) as F.
  destruct (body_of_accumulators _ _ _ F) as (b & Hb & Hitems & Hinstr).
  exists b. split; [exact Hb|]. split; [exact Hitems|].
  rewrite Hinstr. cbn [app]. apply instructions_app.
Qed.

Lemma tool_result_item_witness :
  exists b,
    _messages_to_responses_input_and_instructions
      ([user_message "hi"] ++ tool_message "abc" "42" :: [user_message "ok"])
    = Ok b
    /\ input_items b
       = [turn_of (user_message "hi");
          PDict [("type", PStr "function_call_output");
                 ("output", PStr "42");
                 ("status", PStr "completed");
                 ("call_id", PStr "abc")];
          turn_of (user_message "ok")].
Proof.
  edestruct (tool_result_item [user_message "hi"] [user_message "ok"]
               (tool_message "abc" "42"))
    as (b & Hb & Hitems & _); [reflexivity | reflexivity | reflexivity |].
  exists b. split; [exact Hb|]. rewrite Hitems. reflexivity.
Defined.

(** ** Conversation turns and their tool calls *)

Section Turns.

Lemma dict_get_default_mem (d : pydict) (k : string) (dflt : pyval) :
  dict_get_default d k dflt = if dict_mem d k then dict_get d k else dflt.
Proof.
  unfold dict_get. induction d as [|[k' v] d IH]; cbn; [reflexivity|].
  destruct (String.eqb k' k); cbn; auto.
Qed.

Lemma dict_get_not_mem (d : pydict) (k : string) :
  dict_mem d k = false -> dict_get d k = PNone.
Proof.
  intros H. unfold dict_get. now rewrite dict_get_default_mem, H.
Qed.

Lemma tool_call_item_flattened (tool_call item : pyval) :
  tool_call_item tool_call = Ok item -> call_flattened tool_call item.
Proof.
  destruct tool_call as [| | | | |d]; try discriminate.
  unfold tool_call_item, call_flattened.
  cbn [attr_get attr_get_default bind field].
  rewrite dict_get_default_mem.
  destruct (dict_mem d "function") eqn:Hmem.
  - destruct (dict_get d "function"); try discriminate.
    cbn [attr_get attr_get_default bind field]. now intros [= <-].
  - rewrite (dict_get_not_mem d "function" Hmem).
    cbn [attr_get attr_get_default bind field]. now intros [= <-].
Qed.

(** what one turn of the loop makes of a message that is neither an
    instruction nor a tool result *)
Lemma plain_message_step (d : pydict) (pm : list string) (im : list pyval) :
  is_instruction (PDict d) = false ->
  has_role (PDict d) "tool" = false ->
  message_step ([], []) (PDict d) = Ok (pm, im) ->
  pm = []
  /\ exists outs,
       im = turn_of (PDict d) :: outs
       /\ match dict_get d "tool_calls" with
          | PList calls => Forall2 call_flattened calls outs
          | _ => outs = []
          end.
Proof.
  intros Hinstr Htool. cbn [has_role] in Htool.
  unfold message_step, turn_of. rewrite !attr_get_dict. cbn [bind field].
  rewrite content_to_text_text_of. cbn [bind].
  destruct (hashable (dict_get d "role")) eqn:Hhash.
  - rewrite (in_str_set_hashable (PDict d) d eq_refl Hhash), Hinstr, Htool.
    cbn [bind].
    destruct (truthy (dict_get d "tool_calls")) eqn:Htruthy.
    + destruct (dict_get d "tool_calls") as [| | |s|calls|tc];
        try discriminate.
      * destruct s; discriminate.
      * cbn [py_iter bind].
        destruct (mapM tool_call_item calls) as [outs|] eqn:Hcalls;
          [|discriminate].
        cbn [bind app]. intros [= <- <-]. split; [reflexivity|].
        exists outs. split; [reflexivity|].
        exact (mapM_Forall2 _ _ _ _ tool_call_item_flattened Hcalls).
      * destruct tc as [|[k v] tc]; discriminate.
    + cbn [app]. intros [= <- <-]. split; [reflexivity|].
      exists []. split; [reflexivity|].
      destruct (dict_get d "tool_calls") as [| | | |[|call calls]|];
        try reflexivity; [constructor | discriminate].
  - destruct (dict_get d "role"); discriminate.
Qed.

End Turns.

(** X7.  A message that is neither an instruction nor a tool result gives
    one conversation turn and then one [function_call] item per entry of its
    [tool_calls], in their order: the turn carries the role ([user] when the
    role is missing or falsy) and one content part holding the normalized
    content, tagged [input_text] when the role is the string [user] and
    [output_text] otherwise; each call item carries the name and the
    arguments of the entry's function and the entry's id as call id. *)
Theorem turn_then_calls (m : pyval) (b : pydict) :
  is_instruction m = false ->
  has_role m "tool" = false ->
  _messages_to_responses_input_and_instructions [m] = Ok b ->
  dict_get b "instructions" = PNone
  /\ exists outs,
       input_items b = turn_of m :: outs
       /\ match field m "tool_calls" with
          | PList calls => Forall2 call_flattened calls outs
          | _ => outs = []
          end.
Proof.
  intros Hinstr Htool Hb.
  destruct (messages_body [m] b Hb) as (parts & items & F & -> & -> & _).
  cbn [foldM] in F.
  destruct (message_step ([], []) m) as [[pm im]|] eqn:Hstep; [|discriminate].
  cbn [bind] in F. injection F as <- <-.
  destruct m as [| | | | |d]; try discriminate.
  destruct (plain_message_step d pm im Hinstr Htool Hstep)
    as (-> & outs & -> & Hcalls).
  split; [reflexivity|]. exists outs. split; [reflexivity | exact Hcalls].
Qed.

Lemma turn_then_calls_witness :
  exists b,
    _messages_to_responses_input_and_instructions
      [assistant_calling [sample_call "c1" "f" "{}"; sample_call "c2" "g" "[]"]]
    = Ok b
    /\ input_items b
       = [PDict [("role", PStr "assistant");
                 ("content", PList [PDict [("type", PStr "output_text");
                                           ("text", PStr "")]])];
          PDict [("type", PStr "function_call"); ("name", PStr "f");
                 ("arguments", PStr "{}"); ("call_id", PStr "c1")];
          PDict [("type", PStr "function_call"); ("name", PStr "g");
                 ("arguments", PStr "[]"); ("call_id", PStr "c2")]].
Proof.
  eexists. split; [reflexivity|].
  destruct (turn_then_calls
              (assistant_calling [sample_call "c1" "f" "{}";
                                  sample_call "c2" "g" "[]"])
              _ eq_refl eq_refl eq_refl) as (_ & outs & Hitems & Hcalls).
  rewrite Hitems. f_equal.
  cbn [field assistant_calling dict_get dict_get_default String.eqb Ascii.eqb
       Bool.eqb] in Hcalls.
  inversion Hcalls as [|c1 o1 cs1 os1 Ho1 Hrest1]; subst.
  inversion Hrest1 as [|c2 o2 cs2 os2 Ho2 Hrest2]; subst.
  inversion Hrest2; subst.
  unfold call_flattened in Ho1, Ho2. subst o1 o2. reflexivity.
Defined.

(** ** The outbound request of a successful translation *)

Section Outbound.

(** the keys of the initial body are [instructions] and [input] *)
Lemma initial_body_keys (messages : pyval) (base : pydict) :
  initial_body_of messages = Ok base ->
  forall k,
    dict_mem base k = String.eqb "instructions" k || String.eqb "input" k.
Proof.
  unfold initial_body_of, _messages_to_responses_input_and_instructions.
  destruct (py_or messages (PList [])) as [| | | |l|].
  5: { destruct (foldM message_step ([], []) l) as [[parts items]|];
         [|discriminate].
       cbn [bind]. intros [= <-] k. cbn [dict_mem]. now rewrite orb_false_r. }
  all: intros [= <-] k; cbn [dict_mem];
    destruct (String.eqb "input" k), (String.eqb "instructions" k);
    reflexivity.
Qed.

(** A successful translation, taken apart: the body was an object, its
    messages and tools were accepted, the model and the summary level were
    valid, and the keyword arguments are those of lines 174 to 226. *)
Lemma build_kwargs_ok (cfg : Settings) (req : Request)
  (payload model : pyval) (kw : request_kwargs) :
  build_kwargs cfg req payload model = Ok kw ->
  exists d base tools effort,
    payload = PDict d
    /\ initial_body_of (dict_get d "messages") = Ok base
    /\ _transform_tools_for_responses (dict_get_default d "tools" (PList []))
       = Ok tools
    /\ reasoning_effort_of model = Ok effort
    /\ in_set effort efforts = true
    /\ in_set (AZURE_SUMMARY_LEVEL cfg) ["auto"; "detailed"; "concise"] = true
    /\ kw = {| kw_method := "POST";
               kw_url := AZURE_RESPONSES_API_URL cfg;
               kw_headers :=
                 _copy_request_headers_for_azure req (AZURE_API_KEY cfg);
               kw_json :=
                 let body :=
                   dict_set
                     (dict_set
                        (dict_set
                           (dict_set
                              (dict_set
                                 (dict_set base "model"
                                    (PStr (AZURE_DEPLOYMENT cfg)))
                                 "tools" (PList tools))
                              "tool_choice" (dict_get d "tool_choice"))
                           "prompt_cache_key" (dict_get d "user"))
                        "stream" (PBool true))
                     "reasoning"
                     (PDict [("effort", PStr effort);
                             ("summary", PStr (AZURE_SUMMARY_LEVEL cfg))]) in
                 let body :=
                   if in_set (AZURE_VERBOSITY_LEVEL cfg) ["low"; "high"]
                   then dict_set body "text"
                          (PDict [("verbosity",
                                   PStr (AZURE_VERBOSITY_LEVEL cfg))])
                   else body in
                 let body :=
                   dict_set
                     (dict_set body "store" (PBool false))
                     "stream_options"
                     (PDict [("include_obfuscation", PBool false)]) in
                 if String.eqb (AZURE_TRUNCATION cfg) "auto"
                 then dict_set body "truncation" (PStr (AZURE_TRUNCATION cfg))
                 else body;
               kw_data := PNone;
               kw_stream := true;
               kw_timeout := (60%Z, None) |}.
Proof.
  unfold build_kwargs.
  destruct payload as [| | | | |d]; try discriminate.
  rewrite !attr_get_dict. cbn [bind attr_get_default].
  change (match py_or (dict_get d "messages") (PList []) with
          | PList l => _messages_to_responses_input_and_instructions l
          | _ => Ok [("input", PNone); ("instructions", PNone)]
          end) with (initial_body_of (dict_get d "messages")).
  destruct (initial_body_of (dict_get d "messages")) as [base|] eqn:Hbase;
    [|discriminate].
  cbn [bind].
  destruct (_transform_tools_for_responses _) as [tools|] eqn:Htools;
    [|discriminate].
  cbn [bind].
  destruct (reasoning_effort_of model) as [effort|] eqn:Heffort;
    [|discriminate].
  cbn [bind].
  destruct (in_set effort efforts) eqn:Hin; cbn [negb]; [|discriminate].
  destruct (in_set (AZURE_SUMMARY_LEVEL cfg) _) eqn:Hsummary; cbn [negb];
    [|discriminate].
  intros [= <-]. exists d, base, tools, effort.
  repeat split; solve [assumption | reflexivity].
Qed.

Lemma mapM_length {A B : Type} (f : A -> res B) (l : list A) (out : list B) :
  mapM f l = Ok out -> List.length out = List.length l.
Proof.
  revert out. induction l as [|x xs IH]; cbn [mapM]; intros out.
  - now intros [= <-].
  - destruct (f x); [|discriminate]. cbn [bind].
    destruct (mapM f xs) as [ys|]; [|discriminate]. cbn [bind].
    intros [= <-]. cbn. f_equal. now apply IH.
Qed.

Lemma transform_tools_length (d : pydict) (tools : list pyval) :
  _transform_tools_for_responses (dict_get_default d "tools" (PList []))
  = Ok tools ->
  List.length tools = tool_count (dict_get d "tools").
Proof.
  rewrite dict_get_default_mem.
  destruct (dict_mem d "tools") eqn:Hmem.
  - destruct (dict_get d "tools"); cbn [_transform_tools_for_responses];
      try (now intros [= <-]).
    apply mapM_length.
  - rewrite (dict_get_not_mem d "tools" Hmem). now intros [= <-].
Qed.

End Outbound.

(** solve a lookup in a body built by assignments to literal keys *)
Ltac lookup_body :=
  cbv zeta;
  repeat match goal with
         | |- context [if ?b then _ else _] => destruct b
         end;
  repeat first [ rewrite dict_get_set_same
               | rewrite dict_get_set_other by discriminate ];
  try reflexivity.

(** The steps of a translation of an object, in their order: the messages,
    the tools, the model, the summary level; each can end it. *)
Lemma build_kwargs_cases (cfg : Settings) (req : Request) (d : pydict)
  (model : pyval) :
  match initial_body_of (dict_get d "messages") with
  | Raise e => build_kwargs cfg req (PDict d) model = Raise e
  | Ok _ =>
      match _transform_tools_for_responses
              (dict_get_default d "tools" (PList [])) with
      | Raise e => build_kwargs cfg req (PDict d) model = Raise e
      | Ok _ =>
          match reasoning_effort_of model with
          | Raise e => build_kwargs cfg req (PDict d) model = Raise e
          | Ok effort =>
              if in_set effort efforts then
                if in_set (AZURE_SUMMARY_LEVEL cfg)
                     ["auto"; "detailed"; "concise"]
                then exists kw, build_kwargs cfg req (PDict d) model = Ok kw
                else build_kwargs cfg req (PDict d) model
                     = Raise (ServiceConfigurationError
                                (summary_error_message
                                   (AZURE_SUMMARY_LEVEL cfg)))
              else build_kwargs cfg req (PDict d) model
                   = Raise (CursorConfigurationError
                              (model_error_message model))
          end
      end
  end.
Proof.
  unfold build_kwargs. rewrite !attr_get_dict. cbn [bind attr_get_default].
  change (match py_or (dict_get d "messages") (PList []) with
          | PList l => _messages_to_responses_input_and_instructions l
          | _ => Ok [("input", PNone); ("instructions", PNone)]
          end) with (initial_body_of (dict_get d "messages")).
  destruct (initial_body_of (dict_get d "messages")); cbn [bind];
    [|reflexivity].
  destruct (_transform_tools_for_responses _); cbn [bind]; [|reflexivity].
  destruct (reasoning_effort_of model); cbn [bind]; [|reflexivity].
  destruct (in_set _ efforts); cbn [negb]; [|reflexivity].
  destruct (in_set (AZURE_SUMMARY_LEVEL cfg) _); cbn [negb]; [|reflexivity].
  eexists. reflexivity.
Qed.

(** the exceptions of the first two steps are unhandled ones *)
Lemma initial_body_unhandled (messages : pyval) :
  raises_only_unhandled (initial_body_of messages).
Proof.
  unfold initial_body_of.
  destruct (py_or messages (PList [])); try exact I. apply messages_unhandled.
Qed.

(** the fields a successful translation takes from the partition of the
    messages and from the tools *)
Lemma build_kwargs_fields (cfg : Settings) (req : Request)
  (payload model : pyval) (kw : request_kwargs) :
  build_kwargs cfg req payload model = Ok kw ->
  exists d base tools,
    payload = PDict d
    /\ initial_body_of (dict_get d "messages") = Ok base
    /\ _transform_tools_for_responses (dict_get_default d "tools" (PList []))
       = Ok tools
    /\ dict_get (kw_json kw) "tools" = PList tools
    /\ dict_get (kw_json kw) "input" = dict_get base "input"
    /\ dict_get (kw_json kw) "instructions" = dict_get base "instructions".
Proof.
  intros Hbuild.
  destruct (build_kwargs_ok _ _ _ _ _ Hbuild)
    as (d & base & tools & effort & -> & Hbase & Htools & _ & _ & _ & ->).
  exists d, base, tools. cbn [kw_json].
  repeat split; try assumption; lookup_body.
Qed.

(** X8.  Whatever the request, a successful translation asks for a streamed
    POST to the configured URL, with no form data, a connect timeout of 60
    and no read timeout, carrying the headers of
    [_copy_request_headers_for_azure]; its body names the configured
    deployment as model and has [stream] true, [store] false and
    [stream_options.include_obfuscation] false. *)
Theorem fixed_fields (cfg : Settings) (req : Request) (w : world)
  (kw : request_kwargs) :
  snd (adapt cfg req w) = Ok kw ->
  kw_method kw = "POST"
  /\ kw_url kw = AZURE_RESPONSES_API_URL cfg
  /\ kw_headers kw = _copy_request_headers_for_azure req (AZURE_API_KEY cfg)
  /\ kw_data kw = PNone
  /\ kw_stream kw = true
  /\ kw_timeout kw = (60%Z, None)
  /\ dict_get (kw_json kw) "model" = PStr (AZURE_DEPLOYMENT cfg)
  /\ dict_get (kw_json kw) "stream" = PBool true
  /\ dict_get (kw_json kw) "store" = PBool false
  /\ dict_get (kw_json kw) "stream_options"
     = PDict [("include_obfuscation", PBool false)].
Proof.
  rewrite adapt_unfold. cbn [snd]. intros Hbuild.
  destruct (build_kwargs_ok _ _ _ _ _ Hbuild)
    as (d & base & tools & effort & _ & _ & _ & _ & _ & _ & ->).
  cbn [kw_method kw_url kw_headers kw_data kw_stream kw_timeout kw_json].
  repeat split; lookup_body.
Qed.

Lemma fixed_fields_witness :
  exists kw,
    snd (adapt sample_settings (chat_request "gpt-high" PNone) world0) = Ok kw
    /\ kw_method kw = "POST"
    /\ kw_timeout kw = (60%Z, None)
    /\ dict_get (kw_json kw) "model" = PStr "gpt-5"
    /\ dict_get (kw_json kw) "store" = PBool false.
Proof.
  eexists. split; [vm_compute; reflexivity|].
  pose proof (fixed_fields sample_settings (chat_request "gpt-high" PNone)
                world0 _ eq_refl) as H.
  repeat split; apply H.
Defined.

(** X9.  A successful translation copies the caller's [user] into
    [prompt_cache_key] and its [tool_choice] into [tool_choice], as they are
    ([None] when missing), and its [tools] field is always a list, with one
    entry per tool definition of a list-shaped [tools] and none otherwise. *)
Theorem copied_fields (cfg : Settings) (req : Request) (w : world)
  (kw : request_kwargs) :
  snd (adapt cfg req w) = Ok kw ->
  dict_get (kw_json kw) "prompt_cache_key" = field (req_json req) "user"
  /\ dict_get (kw_json kw) "tool_choice" = field (req_json req) "tool_choice"
  /\ exists tools,
       dict_get (kw_json kw) "tools" = PList tools
       /\ List.length tools = tool_count (field (req_json req) "tools").
Proof.
  rewrite adapt_unfold. cbn [snd]. intros Hbuild.
  destruct (build_kwargs_ok _ _ _ _ _ Hbuild)
    as (d & base & tools & effort & -> & _ & Htools & _ & _ & _ & ->).
  cbn [kw_json field].
  split; [lookup_body|]. split; [lookup_body|].
  exists tools. split; [lookup_body|].
  now apply transform_tools_length.
Qed.

Lemma copied_fields_witness :
  exists kw,
    snd (adapt sample_settings
           {| req_headers := [];
              req_json := PDict [("model", PStr "gpt-low");
                                 ("user", PStr "u-1");
                                 ("tools", PList [sample_tool "f";
                                                  sample_tool "g"])] |}
           world0) = Ok kw
    /\ dict_get (kw_json kw) "prompt_cache_key" = PStr "u-1"
    /\ dict_get (kw_json kw) "tool_choice" = PNone.
Proof.
  eexists. split; [vm_compute; reflexivity|].
  pose proof (copied_fields sample_settings
                {| req_headers := [];
                   req_json := PDict [("model", PStr "gpt-low");
                                      ("user", PStr "u-1");
                                      ("tools", PList [sample_tool "f";
                                                       sample_tool "g"])] |}
                world0 _ eq_refl) as (H1 & H2 & _).
  split; [exact H1 | exact H2].
Defined.

(** X10.  The outcome of a translation whose body names a string model is
    decided by four checks, in this order.  An exception of the messages
    ends it, then one of the tools: both are unhandled ones.  Then a model
    name that, with every [gpt-] removed and the rest lowercased, is no
    effort raises the caller-facing configuration error, whose message ends
    with the name as given.  Then a summary level outside [auto],
    [detailed], [concise] raises the service configuration error quoting
    the level.  Otherwise the translation returns, and the body's
    [reasoning] holds exactly that effort and that summary level. *)
Theorem adapt_outcomes (cfg : Settings) (req : Request) (w : world)
  (d : pydict) (s : string) :
  req_json req = PDict d -> dict_get d "model" = PStr s ->
  match initial_body_of (dict_get d "messages") with
  | Raise e => snd (adapt cfg req w) = Raise e /\ unhandled e = true
  | Ok _ =>
      match _transform_tools_for_responses
              (dict_get_default d "tools" (PList [])) with
      | Raise e => snd (adapt cfg req w) = Raise e /\ unhandled e = true
      | Ok _ =>
          if in_set (str_lower (str_replace s "gpt-" "")) efforts then
            if in_set (AZURE_SUMMARY_LEVEL cfg) ["auto"; "detailed"; "concise"]
            then
              exists kw,
                snd (adapt cfg req w) = Ok kw
                /\ dict_get (kw_json kw) "reasoning"
                   = PDict [("effort",
                             PStr (str_lower (str_replace s "gpt-" "")));
                            ("summary", PStr (AZURE_SUMMARY_LEVEL cfg))]
            else
              snd (adapt cfg req w)
              = Raise (ServiceConfigurationError
                         (summary_error_message (AZURE_SUMMARY_LEVEL cfg)))
          else
            snd (adapt cfg req w)
            = Raise (CursorConfigurationError (model_error_message (PStr s)))
            /\ contains s (model_error_message (PStr s)) = true
      end
  end.
Proof.
  intros Hbody Hmodel. rewrite adapt_unfold, Hbody, Hmodel. cbn [snd].
  pose proof (build_kwargs_cases cfg req d (PStr s)) as Hcases.
  pose proof (initial_body_unhandled (dict_get d "messages")) as Hmessages.
  pose proof (transform_tools_unhandled
                (dict_get_default d "tools" (PList []))) as Htools.
  destruct (initial_body_of (dict_get d "messages")) as [base|e];
    [|split; [exact Hcases | exact Hmessages]].
  destruct (_transform_tools_for_responses _) as [tools|e];
    [|split; [exact Hcases | exact Htools]].
  cbn [reasoning_effort_of] in Hcases.
  destruct (in_set (str_lower (str_replace s "gpt-" "")) efforts);
    [|split; [exact Hcases | apply model_error_names_model]].
  destruct (in_set (AZURE_SUMMARY_LEVEL cfg) _); [|exact Hcases].
  destruct Hcases as [kw Hbuild]. exists kw. split; [exact Hbuild|].
  destruct (build_kwargs_ok _ _ _ _ _ Hbuild)
    as (d' & base' & tools' & effort & _ & _ & _ & Heffort & _ & _ & ->).
  cbn [reasoning_effort_of] in Heffort. injection Heffort as <-.
  cbn [kw_json]. lookup_body.
Qed.

Lemma adapt_outcomes_witness :
  snd (adapt
         {| AZURE_API_KEY := "k"; AZURE_DEPLOYMENT := "d";
            AZURE_SUMMARY_LEVEL := "loud"; AZURE_VERBOSITY_LEVEL := "low";
            AZURE_TRUNCATION := "auto";
            AZURE_RESPONSES_API_URL := "https://x.y/z" |}
         (chat_request "gpt-low" PNone) world0)
  = Raise (ServiceConfigurationError (summary_error_message "loud"))
  /\ snd (adapt
            {| AZURE_API_KEY := "k"; AZURE_DEPLOYMENT := "d";
               AZURE_SUMMARY_LEVEL := "loud"; AZURE_VERBOSITY_LEVEL := "low";
               AZURE_TRUNCATION := "auto";
               AZURE_RESPONSES_API_URL := "https://x.y/z" |}
            (chat_request "gpt-extreme" PNone) world0)
     = Raise (CursorConfigurationError (model_error_message (PStr "gpt-extreme"))).
Proof.
  split.
  - exact (adapt_outcomes
             {| AZURE_API_KEY := "k"; AZURE_DEPLOYMENT := "d";
                AZURE_SUMMARY_LEVEL := "loud"; AZURE_VERBOSITY_LEVEL := "low";
                AZURE_TRUNCATION := "auto";
                AZURE_RESPONSES_API_URL := "https://x.y/z" |}
             (chat_request "gpt-low" PNone) world0 _ "gpt-low"
             eq_refl eq_refl).
  - exact (proj1 (adapt_outcomes
                    {| AZURE_API_KEY := "k"; AZURE_DEPLOYMENT := "d";
                       AZURE_SUMMARY_LEVEL := "loud";
                       AZURE_VERBOSITY_LEVEL := "low";
                       AZURE_TRUNCATION := "auto";
                       AZURE_RESPONSES_API_URL := "https://x.y/z" |}
                    (chat_request "gpt-extreme" PNone) world0 _ "gpt-extreme"
                    eq_refl eq_refl)).
Defined.

(** X11.  The configured truncation is forwarded only when it is [auto] and
    never makes the translation fail: a translation that fails does so the
    same way under every truncation value; one that succeeds has a
    [truncation] field, equal to [auto], exactly when [auto] is configured. *)
Theorem truncation_forwarded (cfg : Settings) (req : Request) (w : world)
  (t : string) :
  match snd (adapt (with_truncation cfg t) req w) with
  | Ok kw =>
      dict_mem (kw_json kw) "truncation" = String.eqb t "auto"
      /\ dict_get (kw_json kw) "truncation"
         = (if String.eqb t "auto" then PStr "auto" else PNone)
  | Raise e =>
      forall t', snd (adapt (with_truncation cfg t') req w) = Raise e
  end.
Proof.
  rewrite adapt_unfold. cbn [snd].
  destruct (build_kwargs (with_truncation cfg t) _ _ _) as [kw|e] eqn:Hbuild.
  - destruct (build_kwargs_ok _ _ _ _ _ Hbuild)
      as (d & base & tools & effort & _ & Hbase & _ & _ & _ & _ & ->).
    pose proof (initial_body_keys _ _ Hbase) as Hkeys.
    cbn [kw_json with_truncation AZURE_API_KEY AZURE_DEPLOYMENT
         AZURE_SUMMARY_LEVEL AZURE_VERBOSITY_LEVEL AZURE_TRUNCATION
         AZURE_RESPONSES_API_URL]. cbv zeta.
    destruct (String.eqb_spec t "auto") as [->|Hne].
    + split; [now rewrite dict_mem_set | now rewrite dict_get_set_same].
    + destruct (in_set (AZURE_VERBOSITY_LEVEL cfg) ["low"; "high"]);
        rewrite ?dict_mem_set, Hkeys;
        rewrite ?dict_get_set_other by discriminate;
        (split; [reflexivity|]);
        apply dict_get_not_mem; now rewrite Hkeys.
  - intros t'. rewrite adapt_unfold. cbn [snd].
    revert Hbuild. unfold build_kwargs.
    cbn [with_truncation AZURE_API_KEY AZURE_DEPLOYMENT AZURE_SUMMARY_LEVEL
         AZURE_VERBOSITY_LEVEL AZURE_TRUNCATION AZURE_RESPONSES_API_URL].
    repeat (step_translation; try discriminate); auto.
Qed.

(** X12.  A request whose [messages] are missing, falsy or not a list is
    translated all the same when the rest of it is valid (a string model
    that gives an effort, a valid summary level, acceptable tools): the
    translation returns, the messages are ignored, and the body goes out
    with [input] and [instructions] both [None]. *)
Theorem no_messages_no_input (cfg : Settings) (req : Request) (w : world)
  (d : pydict) (s : string) :
  req_json req = PDict d ->
  dict_get d "model" = PStr s ->
  in_set (str_lower (str_replace s "gpt-" "")) efforts = true ->
  in_set (AZURE_SUMMARY_LEVEL cfg) ["auto"; "detailed"; "concise"] = true ->
  match dict_get d "tools" with
  | PList tools => forallb wf_tool tools
  | _ => true
  end = true ->
  match dict_get d "messages" with
  | PList (_ :: _) => False
  | _ => True
  end ->
  exists kw,
    snd (adapt cfg req w) = Ok kw
    /\ dict_get (kw_json kw) "input" = PNone
    /\ dict_get (kw_json kw) "instructions" = PNone.
Proof.
  intros Hbody Hmodel Heffort Hsummary Htools Hmessages.
  rewrite adapt_unfold, Hbody, Hmodel. cbn [snd].
  pose proof (build_kwargs_cases cfg req d (PStr s)) as Hcases.
  assert (Hbase : exists base,
             initial_body_of (dict_get d "messages") = Ok base
             /\ dict_get base "input" = PNone
             /\ dict_get base "instructions" = PNone).
  { unfold initial_body_of, py_or.
    destruct (dict_get d "messages") as [|[|]|z|t|[|m l]|[|kv o]];
      cbn [truthy]; try (eexists; repeat split; reflexivity).
    - destruct (negb (z =? 0)%Z); eexists; repeat split; reflexivity.
    - destruct (negb (is_empty t)); eexists; repeat split; reflexivity.
    - contradiction. }
  destruct Hbase as (base & Hbase & Hinput & Hinstr).
  rewrite Hbase in Hcases.
  assert (Hok : is_ok (_transform_tools_for_responses
                         (dict_get_default d "tools" (PList []))) = true).
  { rewrite dict_get_default_mem.
    destruct (dict_mem d "tools"); [|reflexivity].
    destruct (dict_get d "tools"); try reflexivity.
    cbn [_transform_tools_for_responses].
    now rewrite (mapM_ok transform_tool wf_tool _ transform_tool_ok). }
  destruct (_transform_tools_for_responses _) as [tools|]; [|discriminate].
  cbn [reasoning_effort_of] in Hcases. rewrite Heffort, Hsummary in Hcases.
  destruct Hcases as [kw Hbuild]. exists kw. split; [exact Hbuild|].
  destruct (build_kwargs_fields _ _ _ _ _ Hbuild)
    as (d' & base' & tools' & Hd & Hbase' & _ & _ & -> & ->).
  injection Hd as <-. rewrite Hbase in Hbase'. injection Hbase' as <-.
  split; assumption.
Qed.

Lemma no_messages_no_input_witness :
  exists kw,
    snd (adapt sample_settings
           {| req_headers := [];
              req_json := PDict [("model", PStr "gpt-low");
                                 ("messages", PStr "hello")] |}
           world0) = Ok kw
    /\ dict_get (kw_json kw) "input" = PNone
    /\ dict_get (kw_json kw) "instructions" = PNone.
Proof.
  exact (no_messages_no_input sample_settings
           {| req_headers := [];
              req_json := PDict [("model", PStr "gpt-low");
                                 ("messages", PStr "hello")] |}
           world0 _ "gpt-low" eq_refl eq_refl eq_refl eq_refl eq_refl I).
Defined.

(** ** What the report shows of the request body *)

Section Report.

Lemma length_str_take (n : nat) (s : string) : String.length (str_take n s) <= n.
Proof.
  revert s. induction n as [|n IH]; intros s; cbn; [lia|].
  destruct s; cbn; [lia|]. specialize (IH s). lia.
Qed.

Lemma redact_body_instructions (body : pydict) :
  dict_get (redact_body body) "instructions"
  = PStr (str_take 16 (if negb (truthy (dict_get body "instructions"))
                       then "no instructions"
                       else py_str (dict_get body "instructions")) ++ "...").
Proof.
  unfold redact_body.
  rewrite !dict_get_set_other by discriminate. apply dict_get_set_same.
Qed.

Lemma redact_body_tools (body : pydict) :
  dict_get (redact_body body) "tools"
  = PStr ("...redacted " ++ str_of_nat (count_of (dict_get body "tools"))
            ++ " tools...").
Proof.
  unfold redact_body.
  rewrite !dict_get_set_other by discriminate.
  rewrite dict_get_set_same.
  now rewrite !dict_get_set_other by discriminate.
Qed.

Lemma redact_body_input (body : pydict) :
  dict_get (redact_body body) "input"
  = PStr ("...redacted " ++ str_of_nat (count_of (dict_get body "input"))
            ++ " input items...").
Proof.
  unfold redact_body.
  rewrite !dict_get_set_other by discriminate.
  rewrite dict_get_set_same.
  now rewrite !dict_get_set_other by discriminate.
Qed.

Lemma initial_body_input (messages : pyval) (base : pydict) :
  initial_body_of messages = Ok base ->
  count_of (dict_get base "input") = List.length (input_items base).
Proof.
  unfold initial_body_of, _messages_to_responses_input_and_instructions.
  destruct (py_or messages (PList [])) as [| | | |l|];
    try (now intros [= <-]).
  destruct (foldM message_step ([], []) l) as [[parts items]|]; [|discriminate].
  cbn [bind]. intros [= <-]. now destruct items.
Qed.

Lemma count_of_cases (v : pyval) :
  count_of v
  = match v with
    | PList l => List.length l
    | _ => if truthy v then 1 else 0
    end.
Proof.
  unfold count_of. destruct v as [|[|]|z|t|l|o]; try reflexivity;
    cbn [truthy].
  - now destruct (z =? 0)%Z.
  - now destruct t.
  - now destruct o.
Qed.

Lemma redact_body_instructions_shown (body : pydict) :
  dict_get (redact_body body) "instructions"
  = PStr (str_take 16 (if truthy (dict_get body "instructions")
                       then py_str (dict_get body "instructions")
                       else "no instructions") ++ "...").
Proof.
  rewrite redact_body_instructions.
  now destruct (truthy (dict_get body "instructions")).
Qed.

Lemma redact_body_other (body : pydict) (k : string) :
  k <> "instructions" -> k <> "tools" -> k <> "input" ->
  k <> "prompt_cache_key" ->
  dict_get (redact_body body) k = dict_get body k.
Proof.
  intros H1 H2 H3 H4. unfold redact_body.
  now rewrite !dict_get_set_other by congruence.
Qed.



End Report.

(** X13.  What the report shows of the request body.  Of the instructions
    it shows their first 16 characters and three dots, so 19 characters at
    most; when there are none (or a falsy value) it shows the marker
    [no instructions] and three dots.  Of [tools] and of [input] it shows a
    marker holding only a count: the length of a list, 0 for a falsy value,
    1 for anything else.  Every field other than these three and
    [prompt_cache_key] is reported as it was sent. *)
Theorem redaction_scope (body : pydict) :
  dict_get (redact_body body) "instructions"
  = PStr (str_take 16 (if truthy (dict_get body "instructions")
                       then py_str (dict_get body "instructions")
                       else "no instructions") ++ "...")
  /\ (forall preview,
        dict_get (redact_body body) "instructions" = PStr preview ->
        String.length preview <= 19)
  /\ (truthy (dict_get body "instructions") = false ->
      dict_get (redact_body body) "instructions" = PStr "no instructions...")
  /\ dict_get (redact_body body) "tools"
     = PStr ("...redacted "
               ++ str_of_nat match dict_get body "tools" with
                             | PList l => List.length l
                             | v => if truthy v then 1 else 0
                             end
               ++ " tools...")
  /\ dict_get (redact_body body) "input"
     = PStr ("...redacted "
               ++ str_of_nat match dict_get body "input" with
                             | PList l => List.length l
                             | v => if truthy v then 1 else 0
                             end
               ++ " input items...")
  /\ forall k,
       k <> "instructions" -> k <> "tools" -> k <> "input" ->
       k <> "prompt_cache_key" ->
       dict_get (redact_body body) k = dict_get body k.
Proof.
  pose proof (redact_body_instructions_shown body) as Hinstr.
  split; [exact Hinstr|]. split; [|split; [|split; [|split]]].
  - intros preview. rewrite Hinstr.
    pose proof (length_str_take 16
                  (if truthy (dict_get body "instructions")
                   then py_str (dict_get body "instructions")
                   else "no instructions")) as Hlen.
    remember (str_take 16 _) as shown. intros [= <-].
    rewrite length_append. cbn [String.length]. lia.
  - intros Hfalsy. rewrite Hinstr, Hfalsy. reflexivity.
  - rewrite redact_body_tools, count_of_cases.
    now destruct (dict_get body "tools").
  - rewrite redact_body_input, count_of_cases.
    now destruct (dict_get body "input").
  - apply redact_body_other.
Qed.

(** X14.  After a successful translation the report counts what was sent:
    its [tools] marker holds the number of tool definitions of the request
    (none when its [tools] are missing or not a list), and its [input]
    marker holds the number of input items of the outbound body (none when
    there is no input). *)
Theorem report_counts (cfg : Settings) (req : Request) (w : world)
  (kw : request_kwargs) :
  snd (adapt cfg req w) = Ok kw ->
  dict_get (redact_body (kw_json kw)) "tools"
  = PStr ("...redacted "
            ++ str_of_nat (tool_count (field (req_json req) "tools"))
            ++ " tools...")
  /\ dict_get (redact_body (kw_json kw)) "input"
     = PStr ("...redacted "
               ++ str_of_nat (List.length (input_items (kw_json kw)))
               ++ " input items...").
Proof.
  rewrite adapt_unfold. cbn [snd]. intros Hbuild.
  destruct (build_kwargs_fields _ _ _ _ _ Hbuild)
    as (d & base & tools & -> & Hbase & Htools & Htools_field & Hinput & _).
  rewrite redact_body_tools, redact_body_input. unfold input_items.
  rewrite Htools_field, Hinput. cbn [count_of field].
  rewrite (transform_tools_length d tools Htools).
  unfold input_items in *. rewrite (initial_body_input _ _ Hbase).
  split; reflexivity.
Qed.

Lemma report_counts_witness :
  exists kw,
    snd (adapt sample_settings
           {| req_headers := [];
              req_json := PDict [("model", PStr "gpt-low");
                                 ("messages", PList [user_message "hi"]);
                                 ("tools", PList [sample_tool "f";
                                                  sample_tool "g";
                                                  sample_tool "h"])] |}
           world0) = Ok kw
    /\ dict_get (redact_body (kw_json kw)) "tools"
       = PStr "...redacted 3 tools..."
    /\ dict_get (redact_body (kw_json kw)) "input"
       = PStr "...redacted 1 input items...".
Proof.
  eexists. split; [vm_compute; reflexivity|].
  exact (report_counts sample_settings
           {| req_headers := [];
              req_json := PDict [("model", PStr "gpt-low");
                                 ("messages", PList [user_message "hi"]);
                                 ("tools", PList [sample_tool "f";
                                                  sample_tool "g";
                                                  sample_tool "h"])] |}
           world0 _ eq_refl).
Defined.

(** ** The mask of the endpoint *)

Section EndpointMask.

Import Re.

Lemma run_char_dot {T : Type} (b : ascii) (rest : string)
  (caps : list string) (k : cont T) :
  not_lf b = true ->
  run char_dot (String b (String "." rest)) caps k
  = k (String b (String "." "")) rest caps.
Proof.
  intros Hb. unfold char_dot. cbn [run]. rewrite Hb.
  now rewrite Ascii.eqb_refl.
Qed.

Lemma run_char_dot_none {T : Type} (c c' : ascii) (rest : string)
  (caps : list string) (k : cont T) :
  c' <> "."%char ->
  run char_dot (String c (String c' rest)) caps k = None.
Proof.
  intros Hne. unfold char_dot. cbn [run]. destruct (not_lf c); [|reflexivity].
  apply Ascii.eqb_neq in Hne. rewrite Ascii.eqb_sym in Hne. now rewrite Hne.
Qed.

(** The lazy run gives the continuation the shortest text first: when the
    continuation needs a character and a dot, the run stops before the last
    character in front of the first dot. *)
Lemma star_lazy_stops {T : Type} (k : cont T) (b : ascii) (rest : string)
  (caps : list string) :
  b <> "."%char ->
  (forall acc c c' r, c' <> "."%char ->
     k acc (String c (String c' r)) caps = None) ->
  (forall acc, k acc (String b (String "." rest)) caps <> None) ->
  forall mid acc,
    no_lf mid = true -> lacks "." mid = true ->
    star false (mid ++ String b (String "." rest)) acc caps k
    = k (acc ++ mid) (String b (String "." rest)) caps.
Proof.
  intros Hb Hearly Hlast mid.
  induction mid as [|c mid IH]; intros acc Hlf Hdot.
  - replace (acc ++ "") with acc by (clear; induction acc; cbn; congruence).
    cbn [append star].
    destruct (k acc (String b (String "." rest)) caps) eqn:Hk.
    + now destruct (not_lf b).
    + now apply Hlast in Hk.
  - cbn in Hlf, Hdot.
    apply andb_prop in Hlf as [Hc Hlf]. apply andb_prop in Hdot as [_ Hdot].
    cbn [append star]. rewrite Hc.
    assert (Hnone : k acc (String c (mid ++ String b (String "." rest))) caps
                    = None).
    { destruct mid as [|c' mid]; cbn [append]; apply Hearly; [exact Hb|].
      cbn in Hdot. apply andb_prop in Hdot as [Hc' _].
      apply negb_true_iff, Ascii.eqb_neq in Hc'. exact Hc'. }
    rewrite Hnone, (IH _ Hlf Hdot).
    now replace ((acc ++ String c "") ++ mid) with (acc ++ String c mid)
      by (clear; induction acc; cbn; congruence).
Qed.

(** the pattern matches from the two slashes to the first dot *)
Lemma endpoint_pattern_match (a b : ascii) (mid rest : string) :
  not_lf a = true -> not_lf b = true -> b <> "."%char ->
  no_lf mid = true -> lacks "." mid = true ->
  match_at endpoint_pattern
    (String "/" (String "/" (String a (mid ++ String b (String "." rest)))))
  = Some (String "/" (String "/" (String a (mid ++ String b (String "." "")))),
          [String "/" (String "/" (String a ""));
           mid;
           String b (String "." "")]).
Proof.
  intros Ha Hb Hbdot Hlf Hdot.
  unfold match_at, endpoint_pattern.
  change (Seq Any (Lit ".")) with char_dot.
  cbn [run Ascii.eqb Bool.eqb].
  rewrite Ha.
  rewrite (star_lazy_stops _ b rest); try assumption.
  - rewrite run_char_dot by assumption. cbn [app append]. reflexivity.
  - intros. now apply run_char_dot_none.
  - intros acc. rewrite run_char_dot by assumption. discriminate.
Qed.

(** a character that is no slash starts no match *)
Lemma endpoint_no_match_char (c : ascii) (s : string) :
  c <> "/"%char -> match_at endpoint_pattern (String c s) = None.
Proof.
  intros Hne. unfold match_at, endpoint_pattern. cbn [run].
  apply Ascii.eqb_neq in Hne. rewrite Ascii.eqb_sym in Hne. now rewrite Hne.
Qed.

(** a slash that no slash follows starts no match *)
Lemma endpoint_no_match_slash (s : string) :
  prefix "/" s = false ->
  match_at endpoint_pattern (String "/" s) = None.
Proof.
  intros Hpre. unfold match_at, endpoint_pattern. cbn [run].
  rewrite Ascii.eqb_refl.
  destruct s as [|c s]; [reflexivity|].
  cbn [prefix] in Hpre.
  destruct (ascii_dec "/" c) as [->|Hne]; [destruct s; discriminate|].
  apply Ascii.eqb_neq in Hne. now rewrite Hne.
Qed.

(** where no two slashes follow each other nothing is replaced *)
Lemma sub_endpoint_no_slashes (s : string) :
  contains "//" s = false -> sub_from endpoint_pattern mask_template 0 s = s.
Proof.
  induction s as [|c s IH]; [reflexivity|].
  cbn [contains]. intros H. apply orb_false_elim in H as [Hpre Hrest].
  cbn [sub_from].
  assert (Hnone : match_at endpoint_pattern (String c s) = None).
  { destruct (ascii_dec c "/") as [->|Hne].
    - apply endpoint_no_match_slash.
      cbn [prefix] in Hpre. destruct (ascii_dec "/" "/"); [|congruence].
      exact Hpre.
    - now apply endpoint_no_match_char. }
  rewrite Hnone. now rewrite IH.
Qed.

Lemma sub_endpoint_scheme (scheme s : string) :
  lacks "/" scheme = true ->
  sub_from endpoint_pattern mask_template 0 (scheme ++ s)
  = scheme ++ sub_from endpoint_pattern mask_template 0 s.
Proof.
  induction scheme as [|c scheme IH]; [reflexivity|].
  cbn [lacks]. intros H. apply andb_prop in H as [Hc Hrest].
  apply negb_true_iff, Ascii.eqb_neq in Hc.
  cbn [append sub_from]. rewrite endpoint_no_match_char by exact Hc.
  now rewrite IH.
Qed.

Lemma sub_from_skip (r : regex) (tpl : list piece) (u v : string) :
  sub_from r tpl (String.length u) (u ++ v) = sub_from r tpl 0 v.
Proof.
  induction u as [|c u IH]; [reflexivity|]. cbn [String.length append sub_from].
  exact IH.
Qed.

End EndpointMask.

(** X15.  The endpoint of the report keeps its scheme and everything from
    the first dot on; of the text between the two slashes and that dot it
    shows the first and the last character around three asterisks, the rest
    of the host label is masked: [https://myresource.openai.azure.com/x]
    reads [https://m***e.openai.azure.com/x]. *)
Theorem endpoint_label_masked (scheme mid rest : string) (a b : ascii) :
  lacks "/" scheme = true ->
  Re.not_lf a = true -> Re.not_lf b = true -> b <> "."%char ->
  no_lf mid = true -> lacks "." mid = true ->
  contains "//" rest = false ->
  redact_endpoint
    (scheme ++ "//" ++ String a (mid ++ String b (String "." rest)))
  = scheme ++ "//" ++ String a ("***" ++ String b (String "." rest)).
Proof.
  intros Hscheme Ha Hb Hbdot Hlf Hdot Hrest.
  unfold redact_endpoint, Re.sub.
  rewrite sub_endpoint_scheme by exact Hscheme. f_equal.
  cbn [append].
  rewrite (sub_from_match _ _ _ _ _ _
             (endpoint_pattern_match a b mid rest Ha Hb Hbdot Hlf Hdot)).
  set (u := String "/" (String a (mid ++ String b (String "." "")))).
  assert (Htail : String "/" (String a (mid ++ String b (String "." rest)))
                  = u ++ rest).
  { unfold u. cbn [append]. do 2 f_equal.
    clear. induction mid; cbn; congruence. }
  assert (Hlen : String.length (String "/" u) - 1 = String.length u)
    by (cbn [String.length]; lia).
  fold u. rewrite Htail, Hlen, sub_from_skip.
  rewrite sub_endpoint_no_slashes by exact Hrest.
  reflexivity.
Qed.

Lemma endpoint_label_masked_witness :
  redact_endpoint "https://myresource.openai.azure.com/openai/responses"
  = "https://m***e.openai.azure.com/openai/responses".
Proof.
  exact (endpoint_label_masked "https:" "yresourc"
           "openai.azure.com/openai/responses" "m" "e"
           eq_refl eq_refl eq_refl ltac:(discriminate) eq_refl eq_refl eq_refl).
Defined.

(** ** The shared state and the console *)

(** X16.  When [forward] ends, whether with a response or with an exception,
    the shared [inbound_model] is the model of the request just handled
    ([None] when its body is not an object or names none): no value of an
    earlier request survives. *)
Theorem forward_sets_model (E : env) (req : Request) (w : world) :
  inbound_model (fst (forward E req w)) = model_of (req_json req).
Proof.
  destruct (adapt (settings E) req w) as [w1 [kw|e]] eqn:Hadapt.
  - pose proof Hadapt as Hw1. rewrite adapt_unfold in Hw1.
    injection Hw1 as Hw1 _.
    rewrite (forward_adapt_ok E req w w1 kw Hadapt). cbv zeta.
    destruct (upstream E kw) as [resp|e].
    + destruct (negb (status_code resp =? 200)%Z).
      * rewrite handle_azure_error_unfold. cbn [fst inbound_model].
        now rewrite <- Hw1.
      * cbn [fst inbound_model]. now rewrite <- Hw1.
    + cbn [fst inbound_model]. now rewrite <- Hw1.
  - rewrite (forward_adapt_raise E req w w1 e Hadapt). cbn [fst].
    rewrite adapt_unfold in Hadapt. now injection Hadapt as <- _.
Qed.

(** X17.  The payload recorded for the audit is the body that is sent: after
    a successful translation the first two events of [forward] are the
    record of the outbound body, under the tag [upstream_request], and the
    call carrying that very body; the record holds the body as sent, before
    any redaction. *)
Theorem recorded_payload_is_sent (E : env) (req : Request) (w w1 : world)
  (kw : request_kwargs) :
  adapt (settings E) req w = (w1, Ok kw) ->
  exists rest,
    trace (fst (forward E req w))
    = (trace w ++ RecordPayload (kw_json kw) "upstream_request"
                  :: HttpRequest kw :: rest)%list.
Proof.
  intros Hadapt.
  pose proof (adapt_trace req (settings E) w) as Htrace.
  rewrite Hadapt in Htrace. cbn [fst] in Htrace.
  rewrite (forward_adapt_ok E req w w1 kw Hadapt). cbv zeta.
  destruct (upstream E kw) as [resp|e].
  - destruct (negb (status_code resp =? 200)%Z).
    + rewrite handle_azure_error_unfold. cbn [fst trace].
      rewrite Htrace, <- !app_assoc. cbn [app]. eexists. reflexivity.
    + cbn [fst trace]. rewrite Htrace, <- !app_assoc. cbn [app].
      exists []. reflexivity.
  - cbn [fst trace]. rewrite Htrace, <- !app_assoc. cbn [app].
    exists []. reflexivity.
Qed.

Lemma recorded_payload_is_sent_witness :
  exists kw rest,
    dict_get (kw_json kw) "prompt_cache_key" = PStr "abcdefgh"
    /\ trace (fst (forward (env_replying 500)
                    (chat_request "gpt-low" (PStr "abcdefgh")) world0))
       = (trace world0 ++ RecordPayload (kw_json kw) "upstream_request"
                          :: HttpRequest kw :: rest)%list.
Proof.
  edestruct (recorded_payload_is_sent (env_replying 500)
               (chat_request "gpt-low" (PStr "abcdefgh")) world0)
    as [rest H]; [vm_compute; reflexivity|].
  eexists _, rest. split; [|exact H]. reflexivity.
Defined.

(** X18.  What [forward] writes to the console.  When the translation
    fails, when the outbound call raises, and when the vendor answers 200,
    it writes nothing.  When the vendor answers with another status it
    writes a rule naming that status and then one diagnostic, and that
    diagnostic is the body of the response it returns. *)
Theorem printed_diagnostic_is_returned (E : env) (req : Request) (w : world) :
  exists new,
    trace (fst (forward E req w)) = (trace w ++ new)%list
    /\ match adapt (settings E) req w with
       | (_, Raise _) => filter is_console new = []
       | (_, Ok kw) =>
           match upstream E kw with
           | Raise _ => filter is_console new = []
           | Ok resp =>
               if (status_code resp =? 200)%Z
               then filter is_console new = []
               else
                 exists r,
                   snd (forward E req w) = Ok r
                   /\ filter is_console new
                      = [ConsoleRule ("[red]Request failed with status code "
                                        ++ str_of_Z (status_code resp)
                                        ++ "[/red]");
                         ConsolePrint (resp_body r)]
           end
       end.
Proof.
  pose proof (adapt_trace req (settings E) w) as Htrace.
  destruct (adapt (settings E) req w) as [w1 [kw|e]] eqn:Hadapt;
    cbn [fst] in Htrace.
  - rewrite (forward_adapt_ok E req w w1 kw Hadapt). cbv zeta.
    destruct (upstream E kw) as [resp|e].
    + destruct (status_code resp =? 200)%Z; cbn [negb].
      * cbn [fst trace]. rewrite Htrace, <- app_assoc.
        eexists. split; reflexivity.
      * rewrite handle_azure_error_unfold. cbn [fst snd trace].
        rewrite Htrace, <- !app_assoc.
        eexists. split; [reflexivity|].
        eexists. split; reflexivity.
    + cbn [fst trace]. rewrite Htrace, <- app_assoc.
      eexists. split; reflexivity.
  - rewrite (forward_adapt_raise E req w w1 e Hadapt). cbn [fst].
    exists []. rewrite Htrace, app_nil_r. split; reflexivity.
Qed.

(** X19.  A short cache key is reported as sent: when the body's
    [prompt_cache_key] is a non-empty string of fewer than six characters,
    the pattern of the mask matches nowhere and the redacted body of the
    report holds the key unchanged. *)
Theorem short_key_reported_raw (body : pydict) (s : string) :
  dict_get body "prompt_cache_key" = PStr s ->
  s <> "" -> String.length s < 6 ->
  dict_get (redact_body body) "prompt_cache_key" = PStr s.
Proof.
  intros Hkey Hne Hlen. rewrite redact_body_key, Hkey. f_equal.
  unfold redact_prompt_cache_key, py_or.
  destruct s as [|c s]; [congruence|].
  cbn [truthy is_empty negb py_str]. now apply short_key_unmasked.
Qed.

Lemma short_key_reported_raw_witness :
  dict_get (redact_body [("model", PStr "gpt-5"); ("prompt_cache_key", PStr "abc")])
    "prompt_cache_key" = PStr "abc".
Proof.
  apply (short_key_reported_raw
           [("model", PStr "gpt-5"); ("prompt_cache_key", PStr "abc")] "abc");
    [reflexivity | discriminate | cbn; lia].
Defined.

(** ** The documented model names *)

Section DocumentedModels.

Lemma prefix_lower (p s : string) :
  prefix p s = true -> prefix (str_lower p) (str_lower s) = true.
Proof.
  revert s. induction p as [|a p IH]; intros s; [now destruct s|].
  destruct s as [|b s]; cbn [prefix str_lower]; [discriminate|].
  destruct (ascii_dec a b) as [->|]; [|discriminate].
  intros H. destruct (ascii_dec (lower_char b) (lower_char b)); [auto|congruence].
Qed.

Lemma contains_lower (p s : string) :
  contains p s = true -> contains (str_lower p) (str_lower s) = true.
Proof.
  induction s as [|c s IH]; cbn [contains str_lower]; intros H;
    apply orb_true_iff in H as [H|H].
  - change "" with (str_lower ""). now rewrite (prefix_lower _ _ H).
  - discriminate.
  - change (String (lower_char c) (str_lower s)) with (str_lower (String c s)).
    now rewrite (prefix_lower _ _ H).
  - rewrite (IH H). apply orb_true_r.
Qed.

Lemma replace_from_absent (old new s : string) :
  contains old s = false -> replace_from old new 0 s = s.
Proof.
  induction s as [|c s IH]; [reflexivity|].
  cbn [contains replace_from]. intros H.
  apply orb_false_elim in H as [-> H]. now rewrite IH.
Qed.

(** an effort, in any letter case, holds no [gpt-] *)
Lemma effort_holds_no_prefix (s : string) :
  in_set (str_lower s) efforts = true -> contains "gpt-" s = false.
Proof.
  intros Hin. destruct (contains "gpt-" s) eqn:Hc; [|reflexivity].
  apply contains_lower in Hc. change (str_lower "gpt-") with "gpt-" in Hc.
  unfold in_set, efforts in Hin. cbn [existsb] in Hin.
  repeat (apply orb_true_iff in Hin as [Hin|Hin];
          [apply String.eqb_eq in Hin; rewrite Hin in Hc; discriminate Hc|]).
  discriminate.
Qed.

Lemma prefix_append (p s : string) : prefix p (p ++ s) = true.
Proof.
  induction p as [|a p IH]; [now destruct s|].
  cbn [append prefix]. destruct (ascii_dec a a); [exact IH | congruence].
Qed.

Lemma replace_from_occurrence (old new : string) (c : ascii) (s : string) :
  prefix old (String c s) = true ->
  replace_from old new 0 (String c s)
  = new ++ replace_from old new (String.length old - 1) s.
Proof. intros H. cbn [replace_from]. now rewrite H. Qed.

Lemma replace_from_skip (old new u v : string) :
  replace_from old new (String.length u) (u ++ v) = replace_from old new 0 v.
Proof.
  induction u as [|c u IH]; [reflexivity|].
  cbn [String.length append replace_from]. exact IH.
Qed.

Lemma replace_documented (s : string) :
  contains "gpt-" s = false -> str_replace ("gpt-" ++ s) "gpt-" "" = s.
Proof.
  intros H. unfold str_replace.
  change ("gpt-" ++ s) with (String "g" ("pt-" ++ s)).
  rewrite replace_from_occurrence by apply (prefix_append "gpt-" s).
  change (String.length "gpt-" - 1) with (String.length "pt-").
  rewrite replace_from_skip. now apply replace_from_absent.
Qed.

End DocumentedModels.

(** X20.  The documented model names are accepted in any letter case: when
    the model is [gpt-] followed by a name that lowercases to one of
    [high], [medium], [low], [minimal], the translation never raises the
    caller-facing configuration error, and when it succeeds the reasoning
    effort is that lowercased name. *)
Theorem documented_models_accepted (cfg : Settings) (req : Request) (w : world)
  (d : pydict) (s : string) :
  req_json req = PDict d ->
  dict_get d "model" = PStr ("gpt-" ++ s) ->
  in_set (str_lower s) efforts = true ->
  match snd (adapt cfg req w) with
  | Ok kw => effort_of (Ok kw) = Ok (PStr (str_lower s))
  | Raise (CursorConfigurationError _) => False
  | Raise _ => True
  end.
Proof.
  intros Hbody Hmodel Hin.
  pose proof (adapt_effort_cases cfg req w d _ Hbody Hmodel) as H.
  rewrite (replace_documented s (effort_holds_no_prefix s Hin)) in H.
  destruct (snd (adapt cfg req w)) as [kw|[| |msg|msg|]]; try exact I.
  - apply H.
  - destruct H as [H _]. congruence.
Qed.

Lemma documented_models_accepted_witness :
  effort_of (snd (adapt sample_settings (chat_request "gpt-MiniMal" PNone)
                    world0))
  = Ok (PStr "minimal").
Proof.
  pose proof (documented_models_accepted sample_settings
                (chat_request "gpt-MiniMal" PNone) world0 _ "MiniMal"
                eq_refl eq_refl eq_refl) as H.
  destruct (snd (adapt sample_settings (chat_request "gpt-MiniMal" PNone)
                   world0)) as [kw|e] eqn:Hrun; [exact H | discriminate Hrun].
Defined.

(** ** The response to a vendor error *)

Section VendorError.


End VendorError.



(** C10, amended.  When the request body is not a JSON object, or is an
    object whose [model] is missing or not a string, the translation fails
    with an unhandled exception, an [AttributeError] or a [TypeError], and
    never with the caller-facing configuration error.  A body that is not an
    object fails on its first lookup, with the [AttributeError] for [get].
    An object fails with the exception of its messages if they raise one,
    else with that of its tools if they raise one, and else with the
    [AttributeError] for [replace], the string method called on the model;
    the last is the case whenever the messages and the tools are acceptable
    ones. *)
Theorem translation_needs_string_model (cfg : Settings) (req : Request)
  (w : world) :
  lacks_model (req_json req) = true ->
  (exists e, snd (adapt cfg req w) = Raise e /\ unhandled e = true)
  /\ match req_json req with
     | PDict d =>
         match initial_body_of (dict_get d "messages") with
         | Raise e => snd (adapt cfg req w) = Raise e
         | Ok _ =>
             match _transform_tools_for_responses
                     (dict_get_default d "tools" (PList [])) with
             | Raise e => snd (adapt cfg req w) = Raise e
             | Ok _ =>
                 snd (adapt cfg req w)
                 = Raise (AttributeError (type_name (dict_get d "model"))
                            "replace")
             end
         end
     | payload =>
         snd (adapt cfg req w)
         = Raise (AttributeError (type_name payload) "get")
     end
  /\ forall d,
       req_json req = PDict d ->
       match dict_get d "messages" with
       | PList messages => forallb wf_message messages
       | _ => true
       end = true ->
       match dict_get d "tools" with
       | PList tools => forallb wf_tool tools
       | _ => true
       end = true ->
       snd (adapt cfg req w)
       = Raise (AttributeError (type_name (dict_get d "model")) "replace").
Proof.
  intros Hlacks. rewrite adapt_unfold. cbn [snd].
  assert (Hobject : forall d,
             req_json req = PDict d ->
             match initial_body_of (dict_get d "messages") with
             | Raise e =>
                 build_kwargs cfg req (PDict d) (dict_get d "model") = Raise e
             | Ok _ =>
                 match _transform_tools_for_responses
                         (dict_get_default d "tools" (PList [])) with
                 | Raise e =>
                     build_kwargs cfg req (PDict d) (dict_get d "model")
                     = Raise e
                 | Ok _ =>
                     build_kwargs cfg req (PDict d) (dict_get d "model")
                     = Raise (AttributeError (type_name (dict_get d "model"))
                                "replace")
                 end
             end).
  { intros d Hd. rewrite Hd in Hlacks. cbn [lacks_model] in Hlacks.
    apply negb_true_iff in Hlacks.
    pose proof (build_kwargs_cases cfg req d (dict_get d "model")) as Hcases.
    destruct (initial_body_of (dict_get d "messages")); [|exact Hcases].
    destruct (_transform_tools_for_responses _); [|exact Hcases].
    destruct (dict_get d "model"); try discriminate; exact Hcases. }
  split; [|split].
  - pose proof (build_kwargs_without_model cfg req (req_json req)
                  match req_json req with
                  | PDict d => dict_get d "model"
                  | _ => PNone
                  end) as Hfail.
    assert (Hmodel : is_str match req_json req with
                            | PDict d => dict_get d "model"
                            | _ => PNone
                            end = false).
    { destruct (req_json req); try reflexivity.
      cbn [lacks_model] in Hlacks. now apply negb_true_iff in Hlacks. }
    specialize (Hfail Hmodel).
    destruct (build_kwargs cfg req (req_json req) _) as [kw|e];
      [contradiction|].
    exists e. split; [reflexivity | exact Hfail].
  - destruct (req_json req) as [| | | | |d] eqn:Hpayload;
      try reflexivity.
    exact (Hobject d eq_refl).
  - intros d Hd Hmessages Htools. rewrite Hd.
    specialize (Hobject d Hd).
    assert (Hbase : is_ok (initial_body_of (dict_get d "messages")) = true).
    { unfold initial_body_of, py_or.
      destruct (dict_get d "messages") as [|[|]|z|t|[|m l]|[|kv o]];
        cbn [truthy]; try reflexivity.
      - now destruct (negb (z =? 0)%Z).
      - now destruct (negb (is_empty t)).
      - unfold _messages_to_responses_input_and_instructions.
        pose proof (foldM_message_step_ok (m :: l) ([], [])) as Hfold.
        rewrite Hmessages in Hfold.
        destruct (foldM message_step ([], []) (m :: l)) as [[parts items]|];
          [reflexivity | discriminate]. }
    assert (Hok : is_ok (_transform_tools_for_responses
                           (dict_get_default d "tools" (PList []))) = true).
    { rewrite dict_get_default_mem.
      destruct (dict_mem d "tools"); [|reflexivity].
      destruct (dict_get d "tools"); try reflexivity.
      cbn [_transform_tools_for_responses].
      now rewrite (mapM_ok transform_tool wf_tool _ transform_tool_ok). }
    destruct (initial_body_of (dict_get d "messages")); [|discriminate].
    destruct (_transform_tools_for_responses _); [|discriminate].
    exact Hobject.
Qed.

Lemma translation_needs_string_model_witness :
  snd (adapt sample_settings
         {| req_headers := [];
            req_json := PDict [("messages", PList [user_message "hi"])] |}
         world0)
  = Raise (AttributeError "NoneType" "replace")
  /\ snd (adapt sample_settings
            {| req_headers := [];
               req_json := PDict [("model", PInt 5);
                                  ("messages", PList [PDict [("role", PList [])]])] |}
            world0)
     = Raise (TypeError "unhashable type: 'list'")
  /\ snd (adapt sample_settings {| req_headers := []; req_json := PNone |}
            world0)
     = Raise (AttributeError "NoneType" "get").
Proof.
  split; [|split].
  - exact (proj2 (proj2 (translation_needs_string_model sample_settings
                           {| req_headers := [];
                              req_json := PDict [("messages",
                                                  PList [user_message "hi"])] |}
                           world0 eq_refl))
             _ eq_refl eq_refl eq_refl).
  - exact (proj1 (proj2 (translation_needs_string_model sample_settings
                           {| req_headers := [];
                              req_json :=
                                PDict [("model", PInt 5);
                                       ("messages",
                                        PList [PDict [("role", PList [])]])] |}
                           world0 eq_refl))).
  - exact (proj1 (proj2 (translation_needs_string_model sample_settings
                           {| req_headers := []; req_json := PNone |}
                           world0 eq_refl))).
Defined.
